(** * 3D ROI max pooling: the forward and backward kernels of
    [src/caffe/layers/roi_pooling_layer.cu]

    A shallow embedding of [ROIPoolForward], [ROIPoolBackward] and of the two
    layer entry points [Forward_gpu] and [Backward_gpu].

    Modelling conventions.
    - The kernels are templates over [Dtype].  They are embedded twice.
      In the first embedding ([Section Layer]) [Dtype] is the exact
      rationals [Q]: the comparisons, [floor], [ceil] and [round] are the
      mathematical ones and no product or quotient is rounded.  It serves
      for what does not depend on rounding: the decoding of indices, the
      scan of a box, the stores, the reads.  In the second ([Module IEEE])
      [Dtype] is a binary floating-point format, [float] or [double], with
      every product, quotient and sum rounded as the device rounds it.  It
      serves where rounding decides: which elements a bin scans and which
      bins Backward visits.
    - [FLT_MAX] is the largest finite [float].
    - [int] is embedded as [Z]; signed overflow is undefined in the source and
      is not modelled.  [/] and [%] on [int] are [Z.quot] and [Z.rem].
    - device arrays are lists read with [rd] and written with [wr]; an access
      outside the array is undefined in the source, here a read gives the
      default value and a write leaves the array as it is.
    - a kernel launch runs its body once for every index below [nthreads]. *)

From Stdlib Require Import ZArith QArith Qround List Lia Bool Permutation SpecFloat.
Import ListNotations.

Local Open Scope Z_scope.

(** ** Scalars *)

Definition Dtype := Q.

Definition FLT_MAX : Dtype := inject_Z 340282346638528859811704183484516925440.

(** [round] of the C library: to nearest, halves away from zero. *)
Definition round (x : Dtype) : Z :=
  if Qle_bool 0 x then Qfloor (x + (1 # 2))%Q else Qceiling (x - (1 # 2))%Q.

(** Conversion of a floating value to [int]: the fraction is discarded. *)
Definition to_int (x : Dtype) : Z :=
  if Qle_bool 0 x then Qfloor x else Qceiling x.

(** [a > b] on [Dtype]. *)
Definition gt (a b : Dtype) : bool := negb (Qle_bool a b).

(** ** Arrays and loops *)

Definition rd {A} (d : A) (a : list A) (i : Z) : A :=
  if i <? 0 then d else nth (Z.to_nat i) a d.

Fixpoint upd {A} (a : list A) (k : nat) (v : A) : list A :=
  match a, k with
  | [], _ => []
  | _ :: t, O => v :: t
  | x :: t, S k' => x :: upd t k' v
  end.

Definition wr {A} (a : list A) (i : Z) (v : A) : list A :=
  if i <? 0 then a else upd a (Z.to_nat i) v.

(** The values [lo, lo+1, ..., hi-1] taken by [for (int i = lo; i < hi; ++i)]. *)
Definition range (lo hi : Z) : list Z :=
  map (fun k => lo + Z.of_nat k) (seq 0 (Z.to_nat (hi - lo))).

(** Running a kernel body on the indices of a schedule, in that order. *)
Definition run_threads {S} (sched : list Z) (body : Z -> S -> S) (s : S) : S :=
  fold_left (fun st i => body i st) sched s.

(** A kernel body that writes, at its own index, a value that depends on
    the index alone. *)
Definition writes {A} (f : Z -> A) (i : Z) (buf : list A) : list A := wr buf i (f i).

(** Modelled from the spec: the macro [CUDA_KERNEL_LOOP] is declared outside
    this file; by section 5 of the specification every index below
    [nthreads] is one unit of work, executed once. *)
Definition CUDA_KERNEL_LOOP {S} (nthreads : Z) (body : Z -> S -> S) (s : S) : S :=
  run_threads (range 0 nthreads) body s.

(** Modelled from the spec: [caffe_gpu_set(count, 0, buf)] is defined outside
    this file; it zero-initializes the first [count] elements of the buffer. *)
Definition caffe_gpu_set (count : Z) (alpha : Dtype) (buf : list Dtype) : list Dtype :=
  fold_left (fun b i => wr b i alpha) (range 0 count) buf.

(** ** Region records *)

(** The six scaled and rounded boundaries of a region, as both kernels
    compute them from the seven floats of its record. *)
Record roi_box := {
  roi_start_w : Z; roi_start_h : Z; roi_start_l : Z;
  roi_end_w : Z; roi_end_h : Z; roi_end_l : Z }.

Definition clip (x dim : Z) : Z := Z.min (Z.max x 0) dim.

Section Layer.

(** The members of the layer that are passed to the kernels. *)
Variables spatial_scale_xy_ spatial_scale_z_ : Dtype.
Variables channels_ length_ height_ width_ : Z.
Variables pooled_length_ pooled_height_ pooled_width_ : Z.

Definition roi_batch_ind (bottom_rois : list Dtype) (roi_offset : Z) : Z :=
  to_int (rd 0%Q bottom_rois (roi_offset + 0)).

Definition roi_coords (bottom_rois : list Dtype) (roi_offset : Z) : roi_box :=
  {| roi_start_w := round (rd 0%Q bottom_rois (roi_offset + 1) * spatial_scale_xy_)%Q;
     roi_start_h := round (rd 0%Q bottom_rois (roi_offset + 2) * spatial_scale_xy_)%Q;
     roi_start_l := round (rd 0%Q bottom_rois (roi_offset + 3) * spatial_scale_z_)%Q;
     roi_end_w := round (rd 0%Q bottom_rois (roi_offset + 4) * spatial_scale_xy_)%Q;
     roi_end_h := round (rd 0%Q bottom_rois (roi_offset + 5) * spatial_scale_xy_)%Q;
     roi_end_l := round (rd 0%Q bottom_rois (roi_offset + 6) * spatial_scale_z_)%Q |}.

(** Force malformed ROIs to be 1x1. *)
Definition roi_extent (roi_start roi_end : Z) : Z :=
  Z.max (roi_end - roi_start + 1) 1.

Definition bin_size (extent pooled : Z) : Dtype :=
  (inject_Z extent / inject_Z pooled)%Q.

(** ** Forward *)

(** [start] and [end] of pooled bin [p] on one axis: the offsets inside the
    region, then the region offset added and the result clipped. *)
Definition fwd_start (p : Z) (bin : Dtype) (roi_start dim : Z) : Z :=
  clip (Qfloor (inject_Z p * bin)%Q + roi_start) dim.

Definition fwd_end (p : Z) (bin : Dtype) (roi_start dim : Z) : Z :=
  clip (Qceiling (inject_Z (p + 1) * bin)%Q + roi_start) dim.

Definition bottom_index (l h w : Z) : Z := l * height_ * width_ + h * width_ + w.

(** The body of the innermost loop: one comparison, with strict [>]. *)
Definition pool_step (bottom_data : list Dtype) (data_offset : Z)
    (acc : Dtype * Z) (idx : Z) : Dtype * Z :=
  if gt (rd 0%Q bottom_data (data_offset + idx)) (fst acc)
  then (rd 0%Q bottom_data (data_offset + idx), idx)
  else acc.

(** The three nested loops over the box of a bin. *)
Definition pool_box (bottom_data : list Dtype) (data_offset : Z)
    (lstart lend hstart hend wstart wend : Z) (init : Dtype * Z) : Dtype * Z :=
  fold_left (fun acc_l l =>
    fold_left (fun acc_h h =>
      fold_left (fun acc_w w =>
        pool_step bottom_data data_offset acc_w (bottom_index l h w))
        (range wstart wend) acc_h)
      (range hstart hend) acc_l)
    (range lstart lend) init.

(** The clipped box of the bin [(pl, ph, pw)] of a region. *)
Record bin_box := {
  lstart : Z; lend : Z; hstart : Z; hend : Z; wstart : Z; wend : Z }.

Definition fwd_box (r : roi_box) (pl ph pw : Z) : bin_box :=
  let roi_width := roi_extent (roi_start_w r) (roi_end_w r) in
  let roi_height := roi_extent (roi_start_h r) (roi_end_h r) in
  let roi_length := roi_extent (roi_start_l r) (roi_end_l r) in
  let bin_size_l := bin_size roi_length pooled_length_ in
  let bin_size_h := bin_size roi_height pooled_height_ in
  let bin_size_w := bin_size roi_width pooled_width_ in
  {| lstart := fwd_start pl bin_size_l (roi_start_l r) length_;
     lend := fwd_end pl bin_size_l (roi_start_l r) length_;
     hstart := fwd_start ph bin_size_h (roi_start_h r) height_;
     hend := fwd_end ph bin_size_h (roi_start_h r) height_;
     wstart := fwd_start pw bin_size_w (roi_start_w r) width_;
     wend := fwd_end pw bin_size_w (roi_start_w r) width_ |}.

Definition is_empty (b : bin_box) : bool :=
  (lend b <=? lstart b) || (hend b <=? hstart b) || (wend b <=? wstart b).

(** The pooled coordinates [(n, c, pl, ph, pw)] of an output index. *)
Definition top_pw (index : Z) : Z := Z.rem index pooled_width_.
Definition top_ph (index : Z) : Z :=
  Z.rem (Z.quot index pooled_width_) pooled_height_.
Definition top_pl (index : Z) : Z :=
  Z.rem (Z.quot (Z.quot index pooled_width_) pooled_height_) pooled_length_.
Definition top_c (index : Z) : Z :=
  Z.rem (Z.quot (Z.quot (Z.quot index pooled_width_) pooled_height_)
           pooled_length_) channels_.
Definition top_n (index : Z) : Z :=
  Z.quot (Z.quot (Z.quot (Z.quot index pooled_width_) pooled_height_)
            pooled_length_) channels_.

Definition fwd_data_offset (bottom_rois : list Dtype) (index : Z) : Z :=
  (roi_batch_ind bottom_rois (top_n index * 7) * channels_ + top_c index)
  * length_ * height_ * width_.

Definition fwd_index_box (bottom_rois : list Dtype) (index : Z) : bin_box :=
  fwd_box (roi_coords bottom_rois (top_n index * 7))
          (top_pl index) (top_ph index) (top_pw index).

(** One iteration of the kernel loop: the pair [(maxval, maxidx)] that is
    stored at [index]. *)
Definition ROIPoolForward_thread (bottom_data bottom_rois : list Dtype)
    (index : Z) : Dtype * Z :=
  let b := fwd_index_box bottom_rois index in
  let maxval := if is_empty b then 0%Q else (- FLT_MAX)%Q in
  let maxidx := -1 in
  pool_box bottom_data (fwd_data_offset bottom_rois index)
    (lstart b) (lend b) (hstart b) (hend b) (wstart b) (wend b)
    (maxval, maxidx).

Definition fwd_body (bottom_data bottom_rois : list Dtype) (index : Z)
    (st : list Dtype * list Z) : list Dtype * list Z :=
  let r := ROIPoolForward_thread bottom_data bottom_rois index in
  (wr (fst st) index (fst r), wr (snd st) index (snd r)).

Definition ROIPoolForward (nthreads : Z) (bottom_data bottom_rois : list Dtype)
    (top_data : list Dtype) (argmax_data : list Z) : list Dtype * list Z :=
  CUDA_KERNEL_LOOP nthreads (fwd_body bottom_data bottom_rois)
    (top_data, argmax_data).

(** [count] is the number of elements of the top blob. *)
Definition Forward_gpu (bottom_data bottom_rois : list Dtype)
    (top_data : list Dtype) (argmax_data : list Z) : list Dtype * list Z :=
  let count := Z.of_nat (List.length top_data) in
  ROIPoolForward count bottom_data bottom_rois top_data argmax_data.

(** ** Backward *)

(** The volume coordinates [(n, c, l, h, w)] of an input index. *)
Definition bot_w (index : Z) : Z := Z.rem index width_.
Definition bot_h (index : Z) : Z := Z.rem (Z.quot index width_) height_.
Definition bot_l (index : Z) : Z :=
  Z.rem (Z.quot (Z.quot index width_) height_) length_.
Definition bot_c (index : Z) : Z :=
  Z.rem (Z.quot (Z.quot (Z.quot index width_) height_) length_) channels_.
Definition bot_n (index : Z) : Z :=
  Z.quot (Z.quot (Z.quot (Z.quot index width_) height_) length_) channels_.

Definition in_roi (r : roi_box) (l h w : Z) : bool :=
  (roi_start_w r <=? w) && (w <=? roi_end_w r) &&
  (roi_start_h r <=? h) && (h <=? roi_end_h r) &&
  (roi_start_l r <=? l) && (l <=? roi_end_l r).

(** The candidate pooled range of a coordinate on one axis. *)
Definition bwd_start (x roi_start : Z) (bin : Dtype) (pooled : Z) : Z :=
  clip (Qfloor (inject_Z (x - roi_start) / bin)%Q) pooled.

Definition bwd_end (x roi_start : Z) (bin : Dtype) (pooled : Z) : Z :=
  clip (Qceiling (inject_Z (x - roi_start + 1) / bin)%Q) pooled.

Definition pooled_index (pl ph pw : Z) : Z :=
  pl * pooled_height_ * pooled_width_ + ph * pooled_width_ + pw.

(** The body of the innermost loop of the backward kernel. *)
Definition grad_step (top_diff : list Dtype) (argmax_data : list Z)
    (offset : Z) (l h w : Z) (gradient : Dtype) (pl ph pw : Z) : Dtype :=
  if rd 0 argmax_data (offset + pooled_index pl ph pw) =? bottom_index l h w
  then (gradient + rd 0%Q top_diff (offset + pooled_index pl ph pw))%Q
  else gradient.

(** One iteration of the loop over the regions: the accumulator after
    region [roi_n], from the accumulator before it. *)
Definition roi_step (top_diff : list Dtype) (argmax_data : list Z)
    (bottom_rois : list Dtype) (n c l h w : Z)
    (gradient : Dtype) (roi_n : Z) : Dtype :=
  if negb (n =? roi_batch_ind bottom_rois (roi_n * 7)) then gradient else
  let r := roi_coords bottom_rois (roi_n * 7) in
  if negb (in_roi r l h w) then gradient else
  let offset :=
    (roi_n * channels_ + c) * pooled_length_ * pooled_height_ * pooled_width_ in
  let roi_width := roi_extent (roi_start_w r) (roi_end_w r) in
  let roi_height := roi_extent (roi_start_h r) (roi_end_h r) in
  let roi_length := roi_extent (roi_start_l r) (roi_end_l r) in
  let bin_size_l := bin_size roi_length pooled_length_ in
  let bin_size_h := bin_size roi_height pooled_height_ in
  let bin_size_w := bin_size roi_width pooled_width_ in
  let plstart := bwd_start l (roi_start_l r) bin_size_l pooled_length_ in
  let plend := bwd_end l (roi_start_l r) bin_size_l pooled_length_ in
  let phstart := bwd_start h (roi_start_h r) bin_size_h pooled_height_ in
  let phend := bwd_end h (roi_start_h r) bin_size_h pooled_height_ in
  let pwstart := bwd_start w (roi_start_w r) bin_size_w pooled_width_ in
  let pwend := bwd_end w (roi_start_w r) bin_size_w pooled_width_ in
  fold_left (fun g_l pl =>
    fold_left (fun g_h ph =>
      fold_left (fun g_w pw =>
        grad_step top_diff argmax_data offset l h w g_w pl ph pw)
        (range pwstart pwend) g_h)
      (range phstart phend) g_l)
    (range plstart plend) gradient.

(** One iteration of the kernel loop: the gradient stored at [index]. *)
Definition ROIPoolBackward_thread (top_diff : list Dtype) (argmax_data : list Z)
    (num_rois : Z) (bottom_rois : list Dtype) (index : Z) : Dtype :=
  fold_left
    (roi_step top_diff argmax_data bottom_rois
       (bot_n index) (bot_c index) (bot_l index) (bot_h index) (bot_w index))
    (range 0 num_rois) 0%Q.

Definition bwd_body (top_diff : list Dtype) (argmax_data : list Z)
    (num_rois : Z) (bottom_rois : list Dtype) (index : Z)
    (bottom_diff : list Dtype) : list Dtype :=
  wr bottom_diff index
     (ROIPoolBackward_thread top_diff argmax_data num_rois bottom_rois index).

Definition ROIPoolBackward (nthreads : Z) (top_diff : list Dtype)
    (argmax_data : list Z) (num_rois : Z)
    (bottom_diff : list Dtype) (bottom_rois : list Dtype) : list Dtype :=
  CUDA_KERNEL_LOOP nthreads
    (bwd_body top_diff argmax_data num_rois bottom_rois) bottom_diff.

(** [top_num] is [top[0]->num()], the number of regions; [count] is the
    number of elements of the bottom blob. *)
Definition Backward_gpu (propagate_down : bool) (top_diff : list Dtype)
    (argmax_data : list Z) (top_num : Z)
    (bottom_diff : list Dtype) (bottom_rois : list Dtype) : list Dtype :=
  if negb propagate_down then bottom_diff else
  let count := Z.of_nat (List.length bottom_diff) in
  let zeroed := caffe_gpu_set count 0%Q bottom_diff in
  ROIPoolBackward count top_diff argmax_data top_num zeroed bottom_rois.


(** The candidate range of a coordinate on one axis, from the boundaries of
    the region. *)
Definition cand_start (x roi_start roi_end pooled : Z) : Z :=
  bwd_start x roi_start (bin_size (roi_extent roi_start roi_end) pooled) pooled.

Definition cand_end (x roi_start roi_end pooled : Z) : Z :=
  bwd_end x roi_start (bin_size (roi_extent roi_start roi_end) pooled) pooled.

(** The candidate bins [(pl, (ph, pw))] of a coordinate, in loop order. *)
Definition candidates (r : roi_box) (l h w : Z) : list (Z * (Z * Z)) :=
  list_prod
    (range (cand_start l (roi_start_l r) (roi_end_l r) pooled_length_)
           (cand_end l (roi_start_l r) (roi_end_l r) pooled_length_))
    (list_prod
       (range (cand_start h (roi_start_h r) (roi_end_h r) pooled_height_)
              (cand_end h (roi_start_h r) (roi_end_h r) pooled_height_))
       (range (cand_start w (roi_start_w r) (roi_end_w r) pooled_width_)
              (cand_end w (roi_start_w r) (roi_end_w r) pooled_width_))).

Definition top_offset (roi_n c : Z) : Z :=
  (roi_n * channels_ + c) * pooled_length_ * pooled_height_ * pooled_width_.

(** Region [roi_n] gives nothing to the input element [index]: it is of
    another batch slot, or does not contain the coordinate, or none of the
    candidate bins selected the coordinate. *)
Definition unmatched (argmax_data : list Z) (bottom_rois : list Dtype)
    (index roi_n : Z) : Prop :=
  bot_n index <> roi_batch_ind bottom_rois (roi_n * 7) \/
  in_roi (roi_coords bottom_rois (roi_n * 7))
         (bot_l index) (bot_h index) (bot_w index) = false \/
  forall p, In p (candidates (roi_coords bottom_rois (roi_n * 7))
                    (bot_l index) (bot_h index) (bot_w index)) ->
    rd 0 argmax_data
       (top_offset roi_n (bot_c index)
        + pooled_index (fst p) (fst (snd p)) (snd (snd p)))
    <> bottom_index (bot_l index) (bot_h index) (bot_w index).

(** The region, one element wide where it is malformed, does not meet the
    volume on an axis: it ends before 0 or starts at or after [dim]. *)
Definition outside_axis (roi_start roi_end dim : Z) : Prop :=
  roi_start + roi_extent roi_start roi_end <= 0 \/ dim <= roi_start.

Definition roi_outside (r : roi_box) : Prop :=
  outside_axis (roi_start_w r) (roi_end_w r) width_ \/
  outside_axis (roi_start_h r) (roi_end_h r) height_ \/
  outside_axis (roi_start_l r) (roi_end_l r) length_.

(** The boundaries of the region lie in the volume and are not inverted. *)
Definition roi_inside (r : roi_box) : Prop :=
  (0 <= roi_start_w r /\ roi_start_w r <= roi_end_w r /\ roi_end_w r < width_) /\
  (0 <= roi_start_h r /\ roi_start_h r <= roi_end_h r /\ roi_end_h r < height_) /\
  (0 <= roi_start_l r /\ roi_start_l r <= roi_end_l r /\ roi_end_l r < length_).

End Layer.

(** ** The scan order of a box and the coordinates of a region *)

(** The coordinates [(l, (h, w))] of a box in the order of the three nested
    loops: depth outermost, then height, then width. *)
Definition box_scan (b : bin_box) : list (Z * (Z * Z)) :=
  list_prod (range (lstart b) (lend b))
    (list_prod (range (hstart b) (hend b)) (range (wstart b) (wend b))).

(** The flat encoding of a scanned coordinate. *)
Definition coord_index (height_ width_ : Z) (x : Z * (Z * Z)) : Z :=
  bottom_index height_ width_ (fst x) (fst (snd x)) (snd (snd x)).



(** The boundaries of the region are not inverted on any axis. *)
Definition roi_ordered (r : roi_box) : Prop :=
  roi_start_w r <= roi_end_w r /\
  roi_start_h r <= roi_end_h r /\
  roi_start_l r <= roi_end_l r.

(** The support of a region: its coordinates, boundaries included, that lie
    in the volume. *)
Definition region_coords (length_ height_ width_ : Z) (r : roi_box)
    : list (Z * (Z * Z)) :=
  list_prod (range (Z.max (roi_start_l r) 0) (Z.min (roi_end_l r + 1) length_))
    (list_prod (range (Z.max (roi_start_h r) 0) (Z.min (roi_end_h r + 1) height_))
               (range (Z.max (roi_start_w r) 0) (Z.min (roi_end_w r + 1) width_))).

(** The pooled bins of one region and channel. *)
Definition all_bins (pooled_length_ pooled_height_ pooled_width_ : Z)
    : list (Z * (Z * Z)) :=
  list_prod (range 0 pooled_length_)
    (list_prod (range 0 pooled_height_) (range 0 pooled_width_)).

(** ** The kernels in IEEE arithmetic

    The kernels are templates over [Dtype] and the layer instantiates them
    with [float] and [double].  Here [Dtype] is a binary floating-point
    format of the IEEE 754 standard, with [prec] bits of significand and
    infinities at exponent [emax] (24 and 128 for [float], 53 and 1024 for
    [double]); products, quotients and sums are rounded to nearest, ties to
    even, as the device computes them.  Index arithmetic, the decoding of
    indices, the clipping and the containment test are the integer
    functions above. *)


Definition bin_eqb (p q : Z * (Z * Z)) : bool :=
  (fst p =? fst q) && (fst (snd p) =? fst (snd q)) && (snd (snd p) =? snd (snd q)).

Module IEEE.

Section Format.

Variables prec emax : Z.

Definition Dtype := spec_float.

Definition mul : Dtype -> Dtype -> Dtype := SFmul prec emax.
Definition div : Dtype -> Dtype -> Dtype := SFdiv prec emax.
Definition add : Dtype -> Dtype -> Dtype := SFadd prec emax.

(** [static_cast<Dtype>(i)]: the nearest value of the format. *)
Definition of_int (i : Z) : Dtype := binary_normalize prec emax i 0 false.

(** The literal [0]. *)
Definition zero : Dtype := S754_zero false.

(** [FLT_MAX], that is (2^24 - 1) * 2^104, as a value of the format. *)
Definition FLT_MAX : Dtype := binary_normalize prec emax (2 ^ 24 - 1) 104 false.

(** [a > b]; false when either operand is a NaN. *)
Definition gt (a b : Dtype) : bool := SFltb b a.

(** The significand of a finite value with its sign: the value is
    [signed s m * 2^e]. *)
Definition signed (s : bool) (m : positive) : Z := if s then Zneg m else Zpos m.

(** [floor], [ceil] and [round], each followed by the conversion of its
    result to [int].  The conversion of a NaN or of an infinity is undefined
    in the source; it is 0 here. *)
Definition floor (x : Dtype) : Z :=
  match x with
  | S754_finite s m e => Z.shiftl (signed s m) e
  | _ => 0
  end.

Definition ceil (x : Dtype) : Z :=
  match x with
  | S754_finite s m e => - Z.shiftl (- signed s m) e
  | _ => 0
  end.

(** To nearest, halves away from zero. *)
Definition round (x : Dtype) : Z :=
  match x with
  | S754_finite s m e =>
      let a := Z.shiftl (Zpos m + Z.shiftl 1 (- e - 1)) e in
      if s then - a else a
  | _ => 0
  end.

(** Conversion to [int]: the fraction is discarded. *)
Definition to_int (x : Dtype) : Z :=
  match x with
  | S754_finite s m e => let a := Z.shiftl (Zpos m) e in if s then - a else a
  | _ => 0
  end.

(** The real number that a finite value stands for. *)
Definition value (x : Dtype) : Q :=
  match x with
  | S754_finite s m e =>
      if 0 <=? e then inject_Z (signed s m * 2 ^ e)
      else (inject_Z (signed s m) / inject_Z (2 ^ (- e)))%Q
  | _ => 0%Q
  end.

(** Modelled from the spec: [caffe_gpu_set(count, 0, buf)] is defined outside
    this file; it zero-initializes the first [count] elements of the buffer. *)
Definition caffe_gpu_set (count : Z) (alpha : Dtype) (buf : list Dtype) : list Dtype :=
  fold_left (fun b i => wr b i alpha) (range 0 count) buf.

Section Layer.

Variables spatial_scale_xy_ spatial_scale_z_ : Dtype.
Variables channels_ length_ height_ width_ : Z.
Variables pooled_length_ pooled_height_ pooled_width_ : Z.

Definition roi_batch_ind (bottom_rois : list Dtype) (roi_offset : Z) : Z :=
  to_int (rd zero bottom_rois (roi_offset + 0)).

Definition roi_coords (bottom_rois : list Dtype) (roi_offset : Z) : roi_box :=
  {| roi_start_w := round (mul (rd zero bottom_rois (roi_offset + 1)) spatial_scale_xy_);
     roi_start_h := round (mul (rd zero bottom_rois (roi_offset + 2)) spatial_scale_xy_);
     roi_start_l := round (mul (rd zero bottom_rois (roi_offset + 3)) spatial_scale_z_);
     roi_end_w := round (mul (rd zero bottom_rois (roi_offset + 4)) spatial_scale_xy_);
     roi_end_h := round (mul (rd zero bottom_rois (roi_offset + 5)) spatial_scale_xy_);
     roi_end_l := round (mul (rd zero bottom_rois (roi_offset + 6)) spatial_scale_z_) |}.

Definition bin_size (extent pooled : Z) : Dtype :=
  div (of_int extent) (of_int pooled).

Definition fwd_start (p : Z) (bin : Dtype) (roi_start dim : Z) : Z :=
  clip (floor (mul (of_int p) bin) + roi_start) dim.

Definition fwd_end (p : Z) (bin : Dtype) (roi_start dim : Z) : Z :=
  clip (ceil (mul (of_int (p + 1)) bin) + roi_start) dim.

Definition pool_step (bottom_data : list Dtype) (data_offset : Z)
    (acc : Dtype * Z) (idx : Z) : Dtype * Z :=
  if gt (rd zero bottom_data (data_offset + idx)) (fst acc)
  then (rd zero bottom_data (data_offset + idx), idx)
  else acc.

Definition pool_box (bottom_data : list Dtype) (data_offset : Z)
    (lstart lend hstart hend wstart wend : Z) (init : Dtype * Z) : Dtype * Z :=
  fold_left (fun acc_l l =>
    fold_left (fun acc_h h =>
      fold_left (fun acc_w w =>
        pool_step bottom_data data_offset acc_w (bottom_index height_ width_ l h w))
        (range wstart wend) acc_h)
      (range hstart hend) acc_l)
    (range lstart lend) init.

Definition fwd_box (r : roi_box) (pl ph pw : Z) : bin_box :=
  let roi_width := roi_extent (roi_start_w r) (roi_end_w r) in
  let roi_height := roi_extent (roi_start_h r) (roi_end_h r) in
  let roi_length := roi_extent (roi_start_l r) (roi_end_l r) in
  let bin_size_l := bin_size roi_length pooled_length_ in
  let bin_size_h := bin_size roi_height pooled_height_ in
  let bin_size_w := bin_size roi_width pooled_width_ in
  {| lstart := fwd_start pl bin_size_l (roi_start_l r) length_;
     lend := fwd_end pl bin_size_l (roi_start_l r) length_;
     hstart := fwd_start ph bin_size_h (roi_start_h r) height_;
     hend := fwd_end ph bin_size_h (roi_start_h r) height_;
     wstart := fwd_start pw bin_size_w (roi_start_w r) width_;
     wend := fwd_end pw bin_size_w (roi_start_w r) width_ |}.

Definition fwd_data_offset (bottom_rois : list Dtype) (index : Z) : Z :=
  (roi_batch_ind bottom_rois
     (top_n channels_ pooled_length_ pooled_height_ pooled_width_ index * 7) * channels_
   + top_c channels_ pooled_length_ pooled_height_ pooled_width_ index)
  * length_ * height_ * width_.

Definition fwd_index_box (bottom_rois : list Dtype) (index : Z) : bin_box :=
  fwd_box (roi_coords bottom_rois
             (top_n channels_ pooled_length_ pooled_height_ pooled_width_ index * 7))
          (top_pl pooled_length_ pooled_height_ pooled_width_ index)
          (top_ph pooled_height_ pooled_width_ index)
          (top_pw pooled_width_ index).

Definition ROIPoolForward_thread (bottom_data bottom_rois : list Dtype)
    (index : Z) : Dtype * Z :=
  let b := fwd_index_box bottom_rois index in
  let maxval := if is_empty b then zero else SFopp FLT_MAX in
  let maxidx := -1 in
  pool_box bottom_data (fwd_data_offset bottom_rois index)
    (lstart b) (lend b) (hstart b) (hend b) (wstart b) (wend b)
    (maxval, maxidx).

Definition fwd_body (bottom_data bottom_rois : list Dtype) (index : Z)
    (st : list Dtype * list Z) : list Dtype * list Z :=
  let r := ROIPoolForward_thread bottom_data bottom_rois index in
  (wr (fst st) index (fst r), wr (snd st) index (snd r)).

Definition ROIPoolForward (nthreads : Z) (bottom_data bottom_rois : list Dtype)
    (top_data : list Dtype) (argmax_data : list Z) : list Dtype * list Z :=
  CUDA_KERNEL_LOOP nthreads (fwd_body bottom_data bottom_rois)
    (top_data, argmax_data).

Definition Forward_gpu (bottom_data bottom_rois : list Dtype)
    (top_data : list Dtype) (argmax_data : list Z) : list Dtype * list Z :=
  let count := Z.of_nat (List.length top_data) in
  ROIPoolForward count bottom_data bottom_rois top_data argmax_data.

Definition bwd_start (x roi_start : Z) (bin : Dtype) (pooled : Z) : Z :=
  clip (floor (div (of_int (x - roi_start)) bin)) pooled.

Definition bwd_end (x roi_start : Z) (bin : Dtype) (pooled : Z) : Z :=
  clip (ceil (div (of_int (x - roi_start + 1)) bin)) pooled.

Definition grad_step (top_diff : list Dtype) (argmax_data : list Z)
    (offset : Z) (l h w : Z) (gradient : Dtype) (pl ph pw : Z) : Dtype :=
  if rd 0 argmax_data (offset + pooled_index pooled_height_ pooled_width_ pl ph pw)
     =? bottom_index height_ width_ l h w
  then add gradient
         (rd zero top_diff (offset + pooled_index pooled_height_ pooled_width_ pl ph pw))
  else gradient.

Definition roi_step (top_diff : list Dtype) (argmax_data : list Z)
    (bottom_rois : list Dtype) (n c l h w : Z)
    (gradient : Dtype) (roi_n : Z) : Dtype :=
  if negb (n =? roi_batch_ind bottom_rois (roi_n * 7)) then gradient else
  let r := roi_coords bottom_rois (roi_n * 7) in
  if negb (in_roi r l h w) then gradient else
  let offset :=
    (roi_n * channels_ + c) * pooled_length_ * pooled_height_ * pooled_width_ in
  let roi_width := roi_extent (roi_start_w r) (roi_end_w r) in
  let roi_height := roi_extent (roi_start_h r) (roi_end_h r) in
  let roi_length := roi_extent (roi_start_l r) (roi_end_l r) in
  let bin_size_l := bin_size roi_length pooled_length_ in
  let bin_size_h := bin_size roi_height pooled_height_ in
  let bin_size_w := bin_size roi_width pooled_width_ in
  let plstart := bwd_start l (roi_start_l r) bin_size_l pooled_length_ in
  let plend := bwd_end l (roi_start_l r) bin_size_l pooled_length_ in
  let phstart := bwd_start h (roi_start_h r) bin_size_h pooled_height_ in
  let phend := bwd_end h (roi_start_h r) bin_size_h pooled_height_ in
  let pwstart := bwd_start w (roi_start_w r) bin_size_w pooled_width_ in
  let pwend := bwd_end w (roi_start_w r) bin_size_w pooled_width_ in
  fold_left (fun g_l pl =>
    fold_left (fun g_h ph =>
      fold_left (fun g_w pw =>
        grad_step top_diff argmax_data offset l h w g_w pl ph pw)
        (range pwstart pwend) g_h)
      (range phstart phend) g_l)
    (range plstart plend) gradient.

Definition ROIPoolBackward_thread (top_diff : list Dtype) (argmax_data : list Z)
    (num_rois : Z) (bottom_rois : list Dtype) (index : Z) : Dtype :=
  fold_left
    (roi_step top_diff argmax_data bottom_rois
       (bot_n channels_ length_ height_ width_ index)
       (bot_c channels_ length_ height_ width_ index)
       (bot_l length_ height_ width_ index)
       (bot_h height_ width_ index)
       (bot_w width_ index))
    (range 0 num_rois) zero.

Definition bwd_body (top_diff : list Dtype) (argmax_data : list Z)
    (num_rois : Z) (bottom_rois : list Dtype) (index : Z)
    (bottom_diff : list Dtype) : list Dtype :=
  wr bottom_diff index
     (ROIPoolBackward_thread top_diff argmax_data num_rois bottom_rois index).

Definition ROIPoolBackward (nthreads : Z) (top_diff : list Dtype)
    (argmax_data : list Z) (num_rois : Z)
    (bottom_diff : list Dtype) (bottom_rois : list Dtype) : list Dtype :=
  CUDA_KERNEL_LOOP nthreads
    (bwd_body top_diff argmax_data num_rois bottom_rois) bottom_diff.

Definition Backward_gpu (propagate_down : bool) (top_diff : list Dtype)
    (argmax_data : list Z) (top_num : Z)
    (bottom_diff : list Dtype) (bottom_rois : list Dtype) : list Dtype :=
  if negb propagate_down then bottom_diff else
  let count := Z.of_nat (List.length bottom_diff) in
  let zeroed := caffe_gpu_set count zero bottom_diff in
  ROIPoolBackward count top_diff argmax_data top_num zeroed bottom_rois.

(** The candidate range of a coordinate on one axis, from the boundaries of
    the region. *)
Definition cand_start (x roi_start roi_end pooled : Z) : Z :=
  bwd_start x roi_start (bin_size (roi_extent roi_start roi_end) pooled) pooled.

Definition cand_end (x roi_start roi_end pooled : Z) : Z :=
  bwd_end x roi_start (bin_size (roi_extent roi_start roi_end) pooled) pooled.

(** The candidate bins [(pl, (ph, pw))] of a coordinate, in loop order. *)
Definition candidates (r : roi_box) (l h w : Z) : list (Z * (Z * Z)) :=
  list_prod
    (range (cand_start l (roi_start_l r) (roi_end_l r) pooled_length_)
           (cand_end l (roi_start_l r) (roi_end_l r) pooled_length_))
    (list_prod
       (range (cand_start h (roi_start_h r) (roi_end_h r) pooled_height_)
              (cand_end h (roi_start_h r) (roi_end_h r) pooled_height_))
       (range (cand_start w (roi_start_w r) (roi_end_w r) pooled_width_)
              (cand_end w (roi_start_w r) (roi_end_w r) pooled_width_))).

(** Backward reaches the bin [p] of channel [c] of region 0: the selection
    index of the bin is the flat coordinate of an element of the support of
    the region [r], one whose candidate bins include [p]. *)
Definition reaches (argmax_data : list Z) (r : roi_box) (c : Z)
    (p : Z * (Z * Z)) : bool :=
  existsb
    (fun x =>
       (rd 0 argmax_data
           (top_offset channels_ pooled_length_ pooled_height_ pooled_width_ 0 c
            + pooled_index pooled_height_ pooled_width_
                (fst p) (fst (snd p)) (snd (snd p)))
        =? coord_index height_ width_ x)
       && existsb (bin_eqb p) (candidates r (fst x) (fst (snd x)) (snd (snd x))))
    (region_coords length_ height_ width_ r).

(** The sum of the values of the input gradient over the support of a
    region, in batch slot [n] and channel [c]. *)
Definition support_sum (bottom_diff : list Dtype) (n c : Z) (r : roi_box) : Q :=
  fold_left
    (fun s x =>
       (s + value (rd zero bottom_diff
                     ((n * channels_ + c) * length_ * height_ * width_
                      + coord_index height_ width_ x)))%Q)
    (region_coords length_ height_ width_ r) 0%Q.

End Layer.

End Format.

End IEEE.

(** ** Concrete inputs *)

(** A volume of shape (1,1,4,4,4) pooled to (2,2,2), with one region that
    spans the whole volume. *)
Module Cube.


Definition bottom_rois : list Dtype := [0; 0; 0; 0; 3; 3; 3]%Q.

Definition bottom_data : list Dtype :=
  map (fun k => inject_Z ((k * 37) mod 61 - 30)) (range 0 64).

Definition top_data : list Dtype := repeat 0%Q 8.
Definition argmax_data : list Z := repeat 0 8.
Definition bottom_diff : list Dtype := repeat 5%Q 64.

Definition forward : list Dtype * list Z :=
  Forward_gpu 1%Q 1%Q 1 4 4 4 2 2 2 bottom_data bottom_rois top_data argmax_data.

Definition backward (top_diff : list Dtype) : list Dtype :=
  Backward_gpu 1%Q 1%Q 1 4 4 4 2 2 2 true top_diff (snd forward) 1 bottom_diff bottom_rois.

End Cube.

(** A volume of shape (1,1,1,1,4) pooled to (1,1,1), with one region whose
    end on the width axis (1) lies before its start (2). *)
Module Inverted.

Definition bottom_rois : list Dtype := [0; 2; 0; 0; 1; 0; 0]%Q.
Definition bottom_data : list Dtype := [1; 2; 3; 4]%Q.
Definition top_diff : list Dtype := [1]%Q.

Definition forward : list Dtype * list Z :=
  Forward_gpu 1%Q 1%Q 1 1 1 4 1 1 1 bottom_data bottom_rois [0%Q] [0].

Definition backward : list Dtype :=
  Backward_gpu 1%Q 1%Q 1 1 1 4 1 1 1 true top_diff (snd forward) 1
    [7; 7; 7; 7]%Q bottom_rois.

End Inverted.

(** A volume of shape (1,1,1,1,4) pooled to (1,1,1), with one region that
    lies beyond the volume on the width axis. *)
Module Outside.

Definition bottom_rois : list Dtype := [0; 6; 0; 0; 9; 0; 0]%Q.
Definition bottom_data : list Dtype := [1; 2; 3; 4]%Q.

Definition forward : list Dtype * list Z :=
  Forward_gpu 1%Q 1%Q 1 1 1 4 1 1 1 bottom_data bottom_rois [8%Q] [8].

End Outside.

(** A volume of shape (2,1,1,2,3) pooled to (1,1,2), with two regions: the
    first covers the whole of batch slot 0, the second lies in batch slot 1
    and extends from width 1 to width 4, beyond the volume. *)
Module Pair.

Definition bottom_rois : list Dtype :=
  [0; 0; 0; 0; 2; 1; 0;  1; 1; 0; 0; 4; 0; 0]%Q.
Definition bottom_data : list Dtype :=
  [4; 9; 1; 7; 3; 8;  2; 6; 6; 5; 0; 1]%Q.
Definition top_data : list Dtype := repeat 0%Q 4.
Definition argmax_data : list Z := repeat 0 4.
Definition top_diff : list Dtype := [2; 3; 5; 7]%Q.
Definition bottom_diff : list Dtype := repeat 0%Q 12.

Definition forward : list Dtype * list Z :=
  Forward_gpu 1%Q 1%Q 1 1 2 3 1 1 2 bottom_data bottom_rois top_data argmax_data.

Definition backward (top_diff : list Dtype) : list Dtype :=
  Backward_gpu 1%Q 1%Q 1 1 2 3 1 1 2 true top_diff (snd forward) 2 bottom_diff bottom_rois.

End Pair.

(** A volume of shape (1,1,1,1,2) pooled to (1,1,1), with one region over
    its two elements, both of which hold [-FLT_MAX]. *)
Module Lowest.

Definition bottom_rois : list Dtype := [0; 0; 0; 0; 1; 0; 0]%Q.
Definition bottom_data : list Dtype := [- FLT_MAX; - FLT_MAX]%Q.

Definition forward : list Dtype * list Z :=
  Forward_gpu 1%Q 1%Q 1 1 1 2 1 1 1 bottom_data bottom_rois [0%Q] [0].

End Lowest.

(** The volume of shape (1,1,4,4,4) of [Cube] with every element at
    [-2 * FLT_MAX], a value of [double] below the range of [float]. *)
Module Below.

Definition bottom_data : list Dtype := repeat (- (2 * FLT_MAX))%Q 64.

Definition forward : list Dtype * list Z :=
  Forward_gpu 1%Q 1%Q 1 4 4 4 2 2 2 bottom_data Cube.bottom_rois
    Cube.top_data Cube.argmax_data.

End Below.

(** *** Inputs in IEEE arithmetic *)

(** Single precision: the integers as values of [float]. *)
Module Single.

Definition prec : Z := 24.
Definition emax : Z := 128.
Definition lit (i : Z) : IEEE.Dtype := IEEE.of_int prec emax i.
Definition one : IEEE.Dtype := lit 1.

(** The example of [Cube] in single precision. *)
Module Cube.

Definition bottom_rois : list IEEE.Dtype := map lit [0; 0; 0; 0; 3; 3; 3].
Definition bottom_data : list IEEE.Dtype :=
  map (fun k => lit ((k * 37) mod 61 - 30)) (range 0 64).
Definition top_data : list IEEE.Dtype := repeat IEEE.zero 8.
Definition argmax_data : list Z := repeat 0 8.
Definition bottom_diff : list IEEE.Dtype := repeat (lit 5) 64.

End Cube.

(** The example of [Clipped] in single precision: a volume of shape
    (1,1,1,1,2) pooled to (1,1,2), one region from 0 to 3 on the width
    axis. *)
Module Clipped.

Definition bottom_rois : list IEEE.Dtype := map lit [0; 0; 0; 0; 3; 0; 0].
Definition bottom_data : list IEEE.Dtype := map lit [1; 2].

Definition forward : list IEEE.Dtype * list Z :=
  IEEE.Forward_gpu prec emax one one 1 1 1 2 1 1 2 bottom_data bottom_rois
    (repeat IEEE.zero 2) (repeat 0 2).

Definition backward : list IEEE.Dtype :=
  IEEE.Backward_gpu prec emax one one 1 1 1 2 1 1 2 true (repeat one 2) (snd forward) 1
    (repeat IEEE.zero 2) bottom_rois.

End Clipped.

(** A volume of shape (1,1,1,1,4) pooled to (1,1,7), with one region from
    -57 to -1 on the width axis: it ends before the volume starts. *)
Module Before.

Definition bottom_rois : list IEEE.Dtype := map lit [0; -57; 0; 0; -1; 0; 0].
Definition bottom_data : list IEEE.Dtype := map lit [5; 6; 7; 8].

Definition forward : list IEEE.Dtype * list Z :=
  IEEE.Forward_gpu prec emax one one 1 1 1 4 1 1 7 bottom_data bottom_rois
    (repeat IEEE.zero 7) (repeat 0 7).

Definition backward : list IEEE.Dtype :=
  IEEE.Backward_gpu prec emax one one 1 1 1 4 1 1 7 true (repeat one 7) (snd forward) 1
    (repeat IEEE.zero 4) bottom_rois.

End Before.

(** A volume of shape (1,1,1,1,4) pooled to (1,1,28), with one region over
    the whole width, 0 to 3; the output gradient is 1 at bin 20 and 0
    elsewhere. *)
Module Fine.

Definition bottom_rois : list IEEE.Dtype := map lit [0; 0; 0; 0; 3; 0; 0].
Definition bottom_data : list IEEE.Dtype := map lit [1; 2; 3; 4].
Definition top_diff : list IEEE.Dtype :=
  map (fun j => if j =? 20 then one else IEEE.zero) (range 0 28).

Definition forward : list IEEE.Dtype * list Z :=
  IEEE.Forward_gpu prec emax one one 1 1 1 4 1 1 28 bottom_data bottom_rois
    (repeat IEEE.zero 28) (repeat 0 28).

Definition backward : list IEEE.Dtype :=
  IEEE.Backward_gpu prec emax one one 1 1 1 4 1 1 28 true top_diff (snd forward) 1
    (repeat IEEE.zero 4) bottom_rois.

End Fine.

(** A volume of shape (1,1,1,1,8) pooled to (1,1,13), with one region from
    0 to 6 on the width axis, inside the volume, and an output gradient of
    ones. *)
Module Seven.

Definition bottom_rois : list IEEE.Dtype := map lit [0; 0; 0; 0; 6; 0; 0].
Definition bottom_data : list IEEE.Dtype := map lit [1; 2; 3; 4; 5; 6; 7; 8].

Definition forward : list IEEE.Dtype * list Z :=
  IEEE.Forward_gpu prec emax one one 1 1 1 8 1 1 13 bottom_data bottom_rois
    (repeat IEEE.zero 13) (repeat 0 13).

Definition backward : list IEEE.Dtype :=
  IEEE.Backward_gpu prec emax one one 1 1 1 8 1 1 13 true (repeat one 13) (snd forward) 1
    (repeat IEEE.zero 8) bottom_rois.

End Seven.

End Single.

(** Double precision: a volume of shape (1,1,1,1,30) pooled to (1,1,22),
    with one region over the whole width, 0 to 29, feature values
    decreasing along the width; the output gradient is 1 at bin 11 and 0
    elsewhere. *)
Module Double.

Definition prec : Z := 53.
Definition emax : Z := 1024.
Definition lit (i : Z) : IEEE.Dtype := IEEE.of_int prec emax i.
Definition one : IEEE.Dtype := lit 1.

Definition bottom_rois : list IEEE.Dtype := map lit [0; 0; 0; 0; 29; 0; 0].
Definition bottom_data : list IEEE.Dtype := map (fun k => lit (30 - k)) (range 0 30).
Definition top_diff : list IEEE.Dtype :=
  map (fun j => if j =? 11 then one else IEEE.zero) (range 0 22).

Definition forward : list IEEE.Dtype * list Z :=
  IEEE.Forward_gpu prec emax one one 1 1 1 30 1 1 22 bottom_data bottom_rois
    (repeat IEEE.zero 22) (repeat 0 22).

Definition backward : list IEEE.Dtype :=
  IEEE.Backward_gpu prec emax one one 1 1 1 30 1 1 22 true top_diff (snd forward) 1
    (repeat IEEE.zero 30) bottom_rois.

End Double.

(** * Properties *)

(** ** Loops over ranges *)

Lemma range_nil (lo hi : Z) : hi <= lo -> range lo hi = [].
Proof.
  intros H. unfold range.
  replace (Z.to_nat (hi - lo)) with O by lia. reflexivity.
Qed.

Lemma in_range (lo hi x : Z) : In x (range lo hi) <-> lo <= x < hi.
Proof.
  unfold range. rewrite in_map_iff. split.
  - intros [k [<- Hk]]. apply in_seq in Hk. lia.
  - intros H. exists (Z.to_nat (x - lo)). split; [lia|].
    apply in_seq. lia.
Qed.


Lemma fold_left_list_prod {A B C} (f : C -> A * B -> C) (xs : list A) (ys : list B) (c : C) :
  fold_left f (list_prod xs ys) c =
  fold_left (fun acc x => fold_left (fun acc' y => f acc' (x, y)) ys acc) xs c.
Proof.
  revert c. induction xs as [|x xs IH]; intros c; cbn [list_prod fold_left].
  - reflexivity.
  - rewrite fold_left_app, IH. f_equal.
    clear. revert c. induction ys as [|y ys IH]; intros c; cbn; auto.
Qed.


(** ** Reads and writes *)

Lemma length_upd {A} (a : list A) (k : nat) (v : A) : List.length (upd a k v) = List.length a.
Proof.
  revert k. induction a as [|x a IH]; intros [|k]; cbn; auto.
Qed.

Lemma nth_upd {A} (a : list A) (k j : nat) (v d : A) :
  nth j (upd a k v) d = if (Nat.eqb j k && Nat.ltb k (List.length a))%bool then v else nth j a d.
Proof.
  revert k j. induction a as [|x a IH]; intros k j.
  - cbn. rewrite andb_false_r. destruct k; reflexivity.
  - destruct k as [|k], j as [|j]; cbn [upd nth List.length]; try reflexivity.
    rewrite IH. reflexivity.
Qed.

Lemma length_wr {A} (a : list A) (i : Z) (v : A) : List.length (wr a i v) = List.length a.
Proof.
  unfold wr. destruct (i <? 0); [reflexivity | apply length_upd].
Qed.

Lemma rd_wr {A} (d : A) (a : list A) (i j : Z) (v : A) :
  rd d (wr a i v) j =
  if ((j =? i) && (0 <=? i) && (i <? Z.of_nat (List.length a)))%bool then v else rd d a j.
Proof.
  unfold rd, wr.
  destruct (Z.ltb_spec i 0) as [Hi|Hi].
  - destruct (Z.eqb_spec j i); destruct (Z.leb_spec 0 i); cbn; try reflexivity; lia.
  - destruct (Z.ltb_spec j 0) as [Hj|Hj].
    + destruct (Z.eqb_spec j i); cbn; [lia | reflexivity].
    + rewrite nth_upd.
      destruct (Z.eqb_spec j i) as [->|Hne].
      * rewrite Nat.eqb_refl. cbn [andb].
        destruct (Z.leb_spec 0 i); [|lia]. cbn [andb].
        destruct (Z.ltb_spec i (Z.of_nat (List.length a)));
          destruct (Nat.ltb_spec (Z.to_nat i) (List.length a)); try reflexivity; lia.
      * destruct (Nat.eqb_spec (Z.to_nat j) (Z.to_nat i)); [lia | reflexivity].
Qed.

Lemma rd_ext {A} (d : A) (a b : list A) :
  List.length a = List.length b ->
  (forall i, 0 <= i < Z.of_nat (List.length a) -> rd d a i = rd d b i) ->
  a = b.
Proof.
  intros Hlen H. apply nth_ext with (d := d) (d' := d); [exact Hlen|].
  intros n Hn. specialize (H (Z.of_nat n)). unfold rd in H.
  destruct (Z.ltb_spec (Z.of_nat n) 0); [lia|].
  rewrite Nat2Z.id in H. apply H. lia.
Qed.

Lemma length_run_writes {A} (f : Z -> A) (sched : list Z) (buf : list A) :
  List.length (run_threads sched (writes f) buf) = List.length buf.
Proof.
  unfold run_threads. revert buf.
  induction sched as [|i sched IH]; intros buf; cbn [fold_left]; [reflexivity|].
  rewrite IH. apply length_wr.
Qed.

Lemma rd_run_writes {A} (d : A) (f : Z -> A) (sched : list Z) (buf : list A) (j : Z) :
  0 <= j < Z.of_nat (List.length buf) ->
  rd d (run_threads sched (writes f) buf) j =
  if existsb (Z.eqb j) sched then f j else rd d buf j.
Proof.
  unfold run_threads. revert buf.
  induction sched as [|i sched IH]; intros buf Hj; cbn [fold_left existsb]; [reflexivity|].
  rewrite IH by (unfold writes; rewrite length_wr; exact Hj).
  destruct (existsb (Z.eqb j) sched).
  - rewrite orb_true_r. reflexivity.
  - rewrite orb_false_r. unfold writes. rewrite rd_wr.
    destruct (Z.eqb_spec j i) as [->|Hne]; cbn [andb]; [|reflexivity].
    destruct (Z.leb_spec 0 i); [|lia].
    destruct (Z.ltb_spec i (Z.of_nat (List.length buf))); [reflexivity | lia].
Qed.

Lemma existsb_range (lo hi j : Z) : existsb (Z.eqb j) (range lo hi) = (lo <=? j) && (j <? hi).
Proof.
  destruct (existsb (Z.eqb j) (range lo hi)) eqn:E.
  - apply existsb_exists in E. destruct E as [x [Hx Hjx]].
    apply Z.eqb_eq in Hjx. subst x. apply in_range in Hx.
    symmetry. apply andb_true_iff. split; [apply Z.leb_le | apply Z.ltb_lt]; lia.
  - destruct (Z.leb_spec lo j), (Z.ltb_spec j hi); try reflexivity.
    exfalso. assert (Hx : In j (range lo hi)) by (apply in_range; lia).
    assert (E' : existsb (Z.eqb j) (range lo hi) = true).
    { apply existsb_exists. exists j. split; [exact Hx | apply Z.eqb_refl]. }
    congruence.
Qed.

(** ** Counting *)









(** *** Bin boundaries with exact bin sizes, in integer arithmetic *)

Lemma inject_Z_nonzero (P : Z) : P <> 0 -> ~ (inject_Z P == 0)%Q.
Proof.
  intros H E. apply H. unfold Qeq in E. cbn in E. lia.
Qed.

Lemma Qfloor_mul_bin (p L P : Z) :
  0 < P -> Qfloor (inject_Z p * bin_size L P)%Q = (p * L) / P.
Proof.
  intros HP. rewrite Zdiv_Qdiv. apply Qfloor_comp.
  unfold bin_size. rewrite inject_Z_mult. field.
  apply inject_Z_nonzero. lia.
Qed.

Lemma Qceiling_mul_bin (p L P : Z) :
  0 < P -> Qceiling (inject_Z p * bin_size L P)%Q = - ((- (p * L)) / P).
Proof.
  intros HP. unfold Qceiling. f_equal. rewrite Zdiv_Qdiv. apply Qfloor_comp.
  unfold bin_size. rewrite inject_Z_opp, inject_Z_mult. field.
  apply inject_Z_nonzero. lia.
Qed.

Lemma Qfloor_div_bin (y L P : Z) :
  0 < L -> 0 < P -> Qfloor (inject_Z y / bin_size L P)%Q = (y * P) / L.
Proof.
  intros HL HP. rewrite Zdiv_Qdiv. apply Qfloor_comp.
  unfold bin_size. rewrite inject_Z_mult. field.
  split; apply inject_Z_nonzero; lia.
Qed.

Lemma Qceiling_div_bin (y L P : Z) :
  0 < L -> 0 < P -> Qceiling (inject_Z y / bin_size L P)%Q = - ((- (y * P)) / L).
Proof.
  intros HL HP. unfold Qceiling. f_equal. rewrite Zdiv_Qdiv. apply Qfloor_comp.
  unfold bin_size. rewrite inject_Z_opp, inject_Z_mult. field.
  split; apply inject_Z_nonzero; lia.
Qed.

Lemma floor_div_spec (a P : Z) : 0 < P -> P * (a / P) <= a < P * (a / P) + P.
Proof.
  intros HP. pose proof (Z.mul_div_le a P HP).
  pose proof (Z.mul_succ_div_gt a P HP). lia.
Qed.

Lemma ceil_div_spec (a P : Z) :
  0 < P -> P * (- ((- a) / P)) - P < a <= P * (- ((- a) / P)).
Proof.
  intros HP. pose proof (floor_div_spec (- a) P HP). lia.
Qed.

(** The offsets of bin [p] inside a region of extent [L]: they start at or
    after 0, end at or before [L], and the bin is not empty. *)
Lemma bin_offsets (p L P : Z) :
  0 < P -> 1 <= L -> 0 <= p < P ->
  0 <= (p * L) / P /\
  - ((- ((p + 1) * L)) / P) <= L /\
  (p * L) / P < - ((- ((p + 1) * L)) / P).
Proof.
  intros HP HL Hp.
  pose proof (floor_div_spec (p * L) P HP).
  pose proof (ceil_div_spec ((p + 1) * L) P HP).
  split; [|split]; nia.
Qed.

Lemma fwd_start_Z (p L P s dim : Z) :
  0 < P -> fwd_start p (bin_size L P) s dim = clip ((p * L) / P + s) dim.
Proof. intros HP. unfold fwd_start. rewrite Qfloor_mul_bin by exact HP. reflexivity. Qed.

Lemma fwd_end_Z (p L P s dim : Z) :
  0 < P -> fwd_end p (bin_size L P) s dim = clip (- ((- ((p + 1) * L)) / P) + s) dim.
Proof. intros HP. unfold fwd_end. rewrite Qceiling_mul_bin by exact HP. reflexivity. Qed.

Lemma cand_start_Z (x s e P : Z) :
  0 < P -> cand_start x s e P = clip (((x - s) * P) / roi_extent s e) P.
Proof.
  intros HP. unfold cand_start, bwd_start.
  rewrite Qfloor_div_bin by (unfold roi_extent; lia). reflexivity.
Qed.

Lemma cand_end_Z (x s e P : Z) :
  0 < P -> cand_end x s e P = clip (- ((- ((x - s + 1) * P)) / roi_extent s e)) P.
Proof.
  intros HP. unfold cand_end, bwd_end.
  rewrite Qceiling_div_bin by (unfold roi_extent; lia). reflexivity.
Qed.

(** A coordinate of the box of bin [p] lies between the unclipped bounds. *)
Lemma fwd_axis_unclipped (p s e P dim x : Z) :
  0 < P -> 0 <= p < P ->
  fwd_start p (bin_size (roi_extent s e) P) s dim <= x
    < fwd_end p (bin_size (roi_extent s e) P) s dim ->
  (p * roi_extent s e) / P + s <= x < - ((- ((p + 1) * roi_extent s e)) / P) + s.
Proof.
  intros HP Hp. rewrite fwd_start_Z, fwd_end_Z by exact HP.
  assert (HL : 1 <= roi_extent s e) by (unfold roi_extent; lia).
  pose proof (bin_offsets p (roi_extent s e) P HP HL Hp) as (H1 & H2 & H3).
  unfold clip. lia.
Qed.

(** On a non-inverted axis the box of a bin lies inside the region. *)
Lemma fwd_axis_in_roi (p s e P dim x : Z) :
  0 < P -> 0 <= p < P -> s <= e ->
  fwd_start p (bin_size (roi_extent s e) P) s dim <= x
    < fwd_end p (bin_size (roi_extent s e) P) s dim ->
  s <= x <= e.
Proof.
  intros HP Hp Hse Hx. apply fwd_axis_unclipped in Hx; try assumption.
  assert (HL : 1 <= roi_extent s e) by (unfold roi_extent; lia).
  pose proof (bin_offsets p (roi_extent s e) P HP HL Hp) as (H1 & H2 & H3).
  unfold roi_extent in *. lia.
Qed.

(** On an axis where the region is non-inverted and inside the volume, the
    clipping does nothing and the box of a bin is not empty. *)
Lemma fwd_axis_nonempty (p s e P dim : Z) :
  0 < P -> 0 <= p < P -> 0 <= s -> s <= e -> e < dim ->
  fwd_start p (bin_size (roi_extent s e) P) s dim
    < fwd_end p (bin_size (roi_extent s e) P) s dim.
Proof.
  intros HP Hp Hs Hse He. rewrite fwd_start_Z, fwd_end_Z by exact HP.
  assert (HL : 1 <= roi_extent s e) by (unfold roi_extent; lia).
  pose proof (bin_offsets p (roi_extent s e) P HP HL Hp) as (H1 & H2 & H3).
  unfold clip, roi_extent in *. lia.
Qed.


(** The candidate range of a coordinate contains every bin whose box
    contains the coordinate. *)
Lemma cand_axis_covers (p s e P dim x : Z) :
  0 < P -> 0 <= p < P -> s <= x <= e ->
  fwd_start p (bin_size (roi_extent s e) P) s dim <= x
    < fwd_end p (bin_size (roi_extent s e) P) s dim ->
  cand_start x s e P <= p < cand_end x s e P.
Proof.
  intros HP Hp Hx Hbox. apply fwd_axis_unclipped in Hbox; try assumption.
  rewrite cand_start_Z, cand_end_Z by exact HP.
  assert (HL : 0 < roi_extent s e) by (unfold roi_extent; lia).
  pose proof (floor_div_spec (p * roi_extent s e) P HP).
  pose proof (ceil_div_spec ((p + 1) * roi_extent s e) P HP).
  pose proof (floor_div_spec ((x - s) * P) (roi_extent s e) HL).
  pose proof (ceil_div_spec ((x - s + 1) * P) (roi_extent s e) HL).
  unfold clip. split.
  - assert (((x - s) * P) / roi_extent s e <= p) by nia. lia.
  - assert (p < - ((- ((x - s + 1) * P)) / roi_extent s e)) by nia. lia.
Qed.


Section LayerFacts.

Variables spatial_scale_xy_ spatial_scale_z_ : Dtype.
Variables channels_ length_ height_ width_ : Z.
Variables pooled_length_ pooled_height_ pooled_width_ : Z.

Abbreviation fwd_thread :=
  (ROIPoolForward_thread spatial_scale_xy_ spatial_scale_z_ channels_
     length_ height_ width_ pooled_length_ pooled_height_ pooled_width_).
Abbreviation fwd_kernel_body :=
  (fwd_body spatial_scale_xy_ spatial_scale_z_ channels_
     length_ height_ width_ pooled_length_ pooled_height_ pooled_width_).
Abbreviation forward :=
  (Forward_gpu spatial_scale_xy_ spatial_scale_z_ channels_
     length_ height_ width_ pooled_length_ pooled_height_ pooled_width_).
Abbreviation bwd_thread :=
  (ROIPoolBackward_thread spatial_scale_xy_ spatial_scale_z_ channels_
     length_ height_ width_ pooled_length_ pooled_height_ pooled_width_).
Abbreviation bwd_kernel_body :=
  (bwd_body spatial_scale_xy_ spatial_scale_z_ channels_
     length_ height_ width_ pooled_length_ pooled_height_ pooled_width_).
Abbreviation backward :=
  (Backward_gpu spatial_scale_xy_ spatial_scale_z_ channels_
     length_ height_ width_ pooled_length_ pooled_height_ pooled_width_).
Abbreviation region_step :=
  (roi_step spatial_scale_xy_ spatial_scale_z_ channels_
     height_ width_ pooled_length_ pooled_height_ pooled_width_).
Abbreviation coords := (roi_coords spatial_scale_xy_ spatial_scale_z_).
Abbreviation box_of := (fwd_box length_ height_ width_
                      pooled_length_ pooled_height_ pooled_width_).
Abbreviation bidx := (bottom_index height_ width_).
Abbreviation pidx := (pooled_index pooled_height_ pooled_width_).

(** *** The kernels, address by address *)

Lemma run_fwd_body (bottom_data bottom_rois : list Dtype) (sched : list Z)
    (top_data : list Dtype) (argmax_data : list Z) :
  run_threads sched (fwd_kernel_body bottom_data bottom_rois) (top_data, argmax_data) =
  (run_threads sched (writes (fun i => fst (fwd_thread bottom_data bottom_rois i))) top_data,
   run_threads sched (writes (fun i => snd (fwd_thread bottom_data bottom_rois i))) argmax_data).
Proof.
  unfold run_threads. revert top_data argmax_data.
  induction sched as [|i sched IH]; intros top_data argmax_data; cbn [fold_left].
  - reflexivity.
  - unfold fwd_body at 2. cbn [fst snd]. rewrite IH. reflexivity.
Qed.

Lemma Forward_gpu_top (bottom_data bottom_rois top_data : list Dtype)
    (argmax_data : list Z) (index : Z) :
  0 <= index < Z.of_nat (List.length top_data) ->
  rd 0%Q (fst (forward bottom_data bottom_rois top_data argmax_data)) index =
  fst (fwd_thread bottom_data bottom_rois index).
Proof.
  intros H. unfold Forward_gpu, ROIPoolForward, CUDA_KERNEL_LOOP.
  rewrite run_fwd_body. cbn [fst].
  rewrite rd_run_writes by exact H.
  rewrite existsb_range.
  destruct (Z.leb_spec 0 index); [|lia].
  destruct (Z.ltb_spec index (Z.of_nat (List.length top_data))); [reflexivity | lia].
Qed.

Lemma Forward_gpu_argmax (bottom_data bottom_rois top_data : list Dtype)
    (argmax_data : list Z) (index : Z) :
  List.length argmax_data = List.length top_data ->
  0 <= index < Z.of_nat (List.length top_data) ->
  rd 0 (snd (forward bottom_data bottom_rois top_data argmax_data)) index =
  snd (fwd_thread bottom_data bottom_rois index).
Proof.
  intros Hlen H. unfold Forward_gpu, ROIPoolForward, CUDA_KERNEL_LOOP.
  rewrite run_fwd_body. cbn [snd].
  rewrite rd_run_writes by (rewrite Hlen; exact H).
  rewrite existsb_range.
  destruct (Z.leb_spec 0 index); [|lia].
  destruct (Z.ltb_spec index (Z.of_nat (List.length top_data))); [reflexivity | lia].
Qed.

Lemma Forward_gpu_length (bottom_data bottom_rois top_data : list Dtype)
    (argmax_data : list Z) :
  List.length (fst (forward bottom_data bottom_rois top_data argmax_data)) =
    List.length top_data /\
  List.length (snd (forward bottom_data bottom_rois top_data argmax_data)) =
    List.length argmax_data.
Proof.
  unfold Forward_gpu, ROIPoolForward, CUDA_KERNEL_LOOP.
  rewrite run_fwd_body. cbn [fst snd].
  split; apply length_run_writes.
Qed.


Lemma length_caffe_gpu_set (count : Z) (alpha : Dtype) (buf : list Dtype) :
  List.length (caffe_gpu_set count alpha buf) = List.length buf.
Proof.
  unfold caffe_gpu_set.
  change (fold_left (fun b j => wr b j alpha) ?s buf)
    with (run_threads s (writes (fun _ => alpha)) buf).
  apply length_run_writes.
Qed.

Lemma Backward_gpu_length (top_diff : list Dtype) (argmax_data : list Z)
    (top_num : Z) (bottom_diff bottom_rois : list Dtype) :
  List.length (backward true top_diff argmax_data top_num bottom_diff bottom_rois) =
  List.length bottom_diff.
Proof.
  unfold Backward_gpu, ROIPoolBackward, CUDA_KERNEL_LOOP. cbn [negb].
  change (bwd_kernel_body top_diff argmax_data top_num bottom_rois)
    with (writes (bwd_thread top_diff argmax_data top_num bottom_rois)).
  rewrite length_run_writes. apply length_caffe_gpu_set.
Qed.

Lemma Backward_gpu_rd (top_diff : list Dtype) (argmax_data : list Z)
    (top_num : Z) (bottom_diff bottom_rois : list Dtype) (index : Z) :
  0 <= index < Z.of_nat (List.length bottom_diff) ->
  rd 0%Q (backward true top_diff argmax_data top_num bottom_diff bottom_rois) index =
  bwd_thread top_diff argmax_data top_num bottom_rois index.
Proof.
  intros H. unfold Backward_gpu, ROIPoolBackward, CUDA_KERNEL_LOOP. cbn [negb].
  change (bwd_kernel_body top_diff argmax_data top_num bottom_rois)
    with (writes (bwd_thread top_diff argmax_data top_num bottom_rois)).
  rewrite rd_run_writes by (rewrite length_caffe_gpu_set; exact H).
  rewrite existsb_range.
  destruct (Z.leb_spec 0 index); [|lia].
  destruct (Z.ltb_spec index (Z.of_nat (List.length bottom_diff))); [reflexivity | lia].
Qed.

(** *** The scan of one bin *)

Lemma fold_left_ext_in {A B} (f g : A -> B -> A) (l : list B) (a : A) :
  (forall acc x, In x l -> f acc x = g acc x) -> fold_left f l a = fold_left g l a.
Proof.
  revert a. induction l as [|x l IH]; intros a H; cbn [fold_left]; [reflexivity|].
  rewrite H by (left; reflexivity). apply IH. intros acc y Hy. apply H. right. exact Hy.
Qed.

Lemma list_prod_nil_r {A B} (xs : list A) : list_prod xs (@nil B) = [].
Proof. induction xs as [|x xs IH]; cbn; auto. Qed.


Lemma in_box_scan (b : bin_box) (l h w : Z) :
  In (l, (h, w)) (box_scan b) <->
  lstart b <= l < lend b /\ hstart b <= h < hend b /\ wstart b <= w < wend b.
Proof.
  unfold box_scan. rewrite !in_prod_iff, !in_range. tauto.
Qed.

Lemma box_scan_empty (b : bin_box) : is_empty b = true -> box_scan b = [].
Proof.
  unfold is_empty, box_scan. rewrite !orb_true_iff, !Z.leb_le.
  intros [[H|H]|H].
  - rewrite (range_nil _ _ H). reflexivity.
  - rewrite (range_nil _ _ H). cbn [list_prod]. apply list_prod_nil_r.
  - rewrite (range_nil _ _ H), list_prod_nil_r. apply list_prod_nil_r.
Qed.

Lemma box_scan_nonempty (b : bin_box) :
  is_empty b = false ->
  In (lstart b, (hstart b, wstart b)) (box_scan b).
Proof.
  unfold is_empty. rewrite !orb_false_iff, !Z.leb_gt.
  intros [[H1 H2] H3]. apply in_box_scan. lia.
Qed.




Lemma clip_bounds (a b dim x : Z) : clip a dim <= x < clip b dim -> 0 <= x < dim.
Proof. unfold clip. lia. Qed.

Lemma fwd_box_in_volume (r : roi_box) (pl ph pw l h w : Z) :
  In (l, (h, w)) (box_scan (box_of r pl ph pw)) ->
  0 <= l < length_ /\ 0 <= h < height_ /\ 0 <= w < width_.
Proof.
  rewrite in_box_scan. unfold fwd_box, fwd_start, fwd_end. cbn.
  intros (Hl & Hh & Hw).
  apply clip_bounds in Hl. apply clip_bounds in Hh. apply clip_bounds in Hw. tauto.
Qed.


(** *** Properties of the forward kernel *)



Lemma existsb_Permutation {A} (f : A -> bool) (l l' : list A) :
  Permutation l l' -> existsb f l = existsb f l'.
Proof.
  intros HP.
  destruct (existsb f l) eqn:E, (existsb f l') eqn:E'; try reflexivity; exfalso.
  - apply existsb_exists in E. destruct E as [x [Hx Hf]].
    assert (existsb f l' = true); [|congruence].
    apply existsb_exists. exists x. split; [|exact Hf].
    eapply Permutation_in; eassumption.
  - apply existsb_exists in E'. destruct E' as [x [Hx Hf]].
    assert (existsb f l = true); [|congruence].
    apply existsb_exists. exists x. split; [|exact Hf].
    eapply Permutation_in; [apply Permutation_sym|]; eassumption.
Qed.

Lemma run_writes_schedule {A} (d : A) (f : Z -> A) (sched : list Z) (buf1 buf2 : list A) :
  List.length buf2 = List.length buf1 ->
  Permutation sched (range 0 (Z.of_nat (List.length buf1))) ->
  run_threads sched (writes f) buf2 =
  run_threads (range 0 (Z.of_nat (List.length buf1))) (writes f) buf1.
Proof.
  intros Hlen HP. apply rd_ext with (d := d).
  - rewrite !length_run_writes. exact Hlen.
  - intros i Hi. rewrite length_run_writes in Hi.
    rewrite !rd_run_writes by lia.
    rewrite (existsb_Permutation _ _ _ HP), existsb_range.
    destruct (Z.leb_spec 0 i); [|lia].
    destruct (Z.ltb_spec i (Z.of_nat (List.length buf1))); [reflexivity | lia].
Qed.

(** C6. Forward is deterministic: a launch that runs the units of work in
    any order, on output buffers of any previous content, gives the same
    pooled output and the same selection index as [Forward_gpu]; with the
    order of the loop and the same buffers, two runs of [Forward_gpu] agree. *)
Theorem Forward_deterministic (bottom_data bottom_rois : list Dtype)
    (top1 top2 : list Dtype) (argmax1 argmax2 : list Z) (sched : list Z) :
  List.length top2 = List.length top1 ->
  List.length argmax1 = List.length top1 ->
  List.length argmax2 = List.length top1 ->
  Permutation sched (range 0 (Z.of_nat (List.length top1))) ->
  run_threads sched (fwd_kernel_body bottom_data bottom_rois) (top2, argmax2) =
  forward bottom_data bottom_rois top1 argmax1.
Proof.
  intros H2 Ha1 Ha2 HP.
  unfold Forward_gpu, ROIPoolForward, CUDA_KERNEL_LOOP.
  rewrite !run_fwd_body. f_equal.
  - apply (run_writes_schedule 0%Q); assumption.
  - rewrite <- Ha1 in HP |- *. apply (run_writes_schedule 0); [congruence | exact HP].
Qed.

(** *** Properties of the backward kernel *)

Lemma fold_left_filter_skip {A B} (f : A -> B -> A) (keep : B -> bool) (l : list B) (a : A) :
  (forall acc x, keep x = false -> f acc x = acc) ->
  fold_left f l a = fold_left f (filter keep l) a.
Proof.
  intros H. revert a. induction l as [|x l IH]; intros a; cbn [fold_left filter].
  - reflexivity.
  - destruct (keep x) eqn:E; cbn [fold_left].
    + apply IH.
    + rewrite (H a x E). apply IH.
Qed.

(** C4. A region of another batch slot contributes nothing: the iteration
    of the loop over the regions leaves the accumulator as it was, whatever
    the output gradient and the selection index hold; hence the gradient of
    an input element is the one accumulated over the regions of its own
    batch slot alone. *)
Theorem Backward_skips_other_batch (top_diff : list Dtype) (argmax_data : list Z)
    (bottom_rois : list Dtype) :
  (forall n c l h w gradient roi_n,
     roi_batch_ind bottom_rois (roi_n * 7) <> n ->
     region_step top_diff argmax_data bottom_rois n c l h w gradient roi_n = gradient) /\
  (forall num_rois index,
     bwd_thread top_diff argmax_data num_rois bottom_rois index =
     fold_left
       (region_step top_diff argmax_data bottom_rois
          (bot_n channels_ length_ height_ width_ index)
          (bot_c channels_ length_ height_ width_ index)
          (bot_l length_ height_ width_ index)
          (bot_h height_ width_ index) (bot_w width_ index))
       (filter (fun roi_n =>
                  roi_batch_ind bottom_rois (roi_n * 7)
                  =? bot_n channels_ length_ height_ width_ index)
               (range 0 num_rois))
       0%Q).
Proof.
  assert (Hskip : forall n c l h w gradient roi_n,
             roi_batch_ind bottom_rois (roi_n * 7) <> n ->
             region_step top_diff argmax_data bottom_rois n c l h w gradient roi_n
             = gradient).
  { intros n c l h w gradient roi_n H. unfold roi_step.
    destruct (Z.eqb_spec n (roi_batch_ind bottom_rois (roi_n * 7))) as [E|E].
    - congruence.
    - reflexivity. }
  split; [exact Hskip|].
  intros num_rois index. unfold ROIPoolBackward_thread.
  apply fold_left_filter_skip. intros acc roi_n E.
  apply Hskip. apply Z.eqb_neq. exact E.
Qed.

Lemma fold_left_fixed {A B} (f : A -> B -> A) (l : list B) (a : A) :
  (forall x, In x l -> f a x = a) -> fold_left f l a = a.
Proof.
  induction l as [|x l IH]; intros H; cbn [fold_left]; [reflexivity|].
  rewrite H by (left; reflexivity). apply IH. intros y Hy. apply H. right. exact Hy.
Qed.

(** The three loops over the candidate bins, as one loop over [candidates]. *)
Lemma roi_step_candidates (top_diff : list Dtype) (argmax_data : list Z)
    (bottom_rois : list Dtype) (n c l h w : Z) (gradient : Dtype) (roi_n : Z) :
  n = roi_batch_ind bottom_rois (roi_n * 7) ->
  in_roi (coords bottom_rois (roi_n * 7)) l h w = true ->
  region_step top_diff argmax_data bottom_rois n c l h w gradient roi_n =
  fold_left (fun g p =>
               grad_step height_ width_ pooled_height_ pooled_width_
                 top_diff argmax_data
                 (top_offset channels_ pooled_length_ pooled_height_ pooled_width_ roi_n c)
                 l h w g (fst p) (fst (snd p)) (snd (snd p)))
    (candidates pooled_length_ pooled_height_ pooled_width_
       (coords bottom_rois (roi_n * 7)) l h w)
    gradient.
Proof.
  intros Hn Hin. unfold roi_step. rewrite Hin.
  destruct (Z.eqb_spec n (roi_batch_ind bottom_rois (roi_n * 7))); [|contradiction].
  cbn [negb]. cbv zeta. unfold candidates.
  rewrite fold_left_list_prod. apply fold_left_ext_in. intros g pl _.
  rewrite fold_left_list_prod. reflexivity.
Qed.

Lemma roi_step_unmatched (top_diff : list Dtype) (argmax_data : list Z)
    (bottom_rois : list Dtype) (index : Z) (gradient : Dtype) (roi_n : Z) :
  unmatched spatial_scale_xy_ spatial_scale_z_ channels_ length_ height_ width_
    pooled_length_ pooled_height_ pooled_width_ argmax_data bottom_rois index roi_n ->
  region_step top_diff argmax_data bottom_rois
    (bot_n channels_ length_ height_ width_ index)
    (bot_c channels_ length_ height_ width_ index)
    (bot_l length_ height_ width_ index)
    (bot_h height_ width_ index) (bot_w width_ index) gradient roi_n = gradient.
Proof.
  intros [H | [H | H]].
  - unfold roi_step.
    destruct (Z.eqb_spec (bot_n channels_ length_ height_ width_ index)
                (roi_batch_ind bottom_rois (roi_n * 7))); [contradiction | reflexivity].
  - unfold roi_step. rewrite H. cbn [negb].
    destruct (negb _); reflexivity.
  - destruct (Z.eq_dec (bot_n channels_ length_ height_ width_ index)
                (roi_batch_ind bottom_rois (roi_n * 7))) as [En|En].
    2:{ unfold roi_step. destruct (Z.eqb_spec (bot_n channels_ length_ height_ width_ index)
                (roi_batch_ind bottom_rois (roi_n * 7))); [contradiction | reflexivity]. }
    destruct (in_roi (coords bottom_rois (roi_n * 7))
                (bot_l length_ height_ width_ index)
                (bot_h height_ width_ index) (bot_w width_ index)) eqn:Ein.
    2:{ unfold roi_step. rewrite Ein. cbn [negb]. destruct (negb _); reflexivity. }
    rewrite roi_step_candidates by assumption.
    apply fold_left_fixed. intros p Hp. unfold grad_step.
    destruct (Z.eqb_spec
                (rd 0 argmax_data
                   (top_offset channels_ pooled_length_ pooled_height_ pooled_width_ roi_n
                      (bot_c channels_ length_ height_ width_ index)
                    + pidx (fst p) (fst (snd p)) (snd (snd p))))
                (bidx (bot_l length_ height_ width_ index)
                   (bot_h height_ width_ index) (bot_w width_ index))) as [E|E].
    + exfalso. exact (H p Hp E).
    + reflexivity.
Qed.



(** *** Candidate bins and degenerate regions *)

Lemma top_coords_bounds (index : Z) :
  0 <= index -> 0 < pooled_length_ -> 0 < pooled_height_ -> 0 < pooled_width_ ->
  0 <= top_pl pooled_length_ pooled_height_ pooled_width_ index < pooled_length_ /\
  0 <= top_ph pooled_height_ pooled_width_ index < pooled_height_ /\
  0 <= top_pw pooled_width_ index < pooled_width_.
Proof.
  intros Hi HL HH HW. unfold top_pl, top_ph, top_pw.
  assert (H1 : 0 <= Z.quot index pooled_width_) by (apply Z.quot_pos; lia).
  assert (H2 : 0 <= Z.quot (Z.quot index pooled_width_) pooled_height_)
    by (apply Z.quot_pos; lia).
  split; [|split]; apply Z.rem_bound_pos; assumption.
Qed.

Lemma in_roi_true (r : roi_box) (l h w : Z) :
  in_roi r l h w = true <->
  (roi_start_w r <= w <= roi_end_w r) /\
  (roi_start_h r <= h <= roi_end_h r) /\
  (roi_start_l r <= l <= roi_end_l r).
Proof.
  unfold in_roi. rewrite !andb_true_iff, !Z.leb_le. tauto.
Qed.

Lemma in_candidates (r : roi_box) (l h w pl ph pw : Z) :
  In (pl, (ph, pw)) (candidates pooled_length_ pooled_height_ pooled_width_ r l h w) <->
  (cand_start l (roi_start_l r) (roi_end_l r) pooled_length_ <= pl
     < cand_end l (roi_start_l r) (roi_end_l r) pooled_length_) /\
  (cand_start h (roi_start_h r) (roi_end_h r) pooled_height_ <= ph
     < cand_end h (roi_start_h r) (roi_end_h r) pooled_height_) /\
  (cand_start w (roi_start_w r) (roi_end_w r) pooled_width_ <= pw
     < cand_end w (roi_start_w r) (roi_end_w r) pooled_width_).
Proof.
  unfold candidates. rewrite !in_prod_iff, !in_range. tauto.
Qed.

(** With exact bin sizes the candidate range of a coordinate of the region
    contains every bin whose box holds the coordinate.  The rounded
    quotients of the device do not keep this. *)
Lemma candidates_cover (r : roi_box) (l h w pl ph pw : Z) :
  0 < pooled_length_ -> 0 < pooled_height_ -> 0 < pooled_width_ ->
  0 <= pl < pooled_length_ -> 0 <= ph < pooled_height_ -> 0 <= pw < pooled_width_ ->
  in_roi r l h w = true ->
  In (l, (h, w)) (box_scan (box_of r pl ph pw)) ->
  In (pl, (ph, pw)) (candidates pooled_length_ pooled_height_ pooled_width_ r l h w).
Proof.
  intros HL HH HW Hpl Hph Hpw Hin Hbox.
  apply in_roi_true in Hin. destruct Hin as (Hw & Hh & Hl).
  apply in_box_scan in Hbox. cbn in Hbox. destruct Hbox as (Bl & Bh & Bw).
  apply in_candidates.
  split; [|split]; eapply cand_axis_covers; eassumption.
Qed.


(** *** Encoding and decoding of flat indices *)

Lemma quot_rem_digit (q b r : Z) :
  0 <= q -> 0 <= r < b -> Z.quot (q * b + r) b = q /\ Z.rem (q * b + r) b = r.
Proof.
  intros Hq Hr. split; symmetry.
  - apply Z.quot_unique with (r := r); [nia | lia | lia].
  - apply Z.rem_unique with (q := q); [nia | lia | lia].
Qed.

Lemma digit_bounds (q b r m : Z) :
  0 <= q < m -> 0 <= r < b -> 0 <= q * b + r < m * b.
Proof. intros Hq Hr. nia. Qed.

Lemma bot_decode (n c l h w : Z) :
  0 <= n -> 0 <= c < channels_ ->
  0 <= l < length_ -> 0 <= h < height_ -> 0 <= w < width_ ->
  let index := (n * channels_ + c) * length_ * height_ * width_ + bidx l h w in
  bot_n channels_ length_ height_ width_ index = n /\
  bot_c channels_ length_ height_ width_ index = c /\
  bot_l length_ height_ width_ index = l /\
  bot_h height_ width_ index = h /\
  bot_w width_ index = w.
Proof.
  intros Hn Hc Hl Hh Hw. cbv zeta.
  unfold bot_n, bot_c, bot_l, bot_h, bot_w, bottom_index.
  replace ((n * channels_ + c) * length_ * height_ * width_
           + (l * height_ * width_ + h * width_ + w))
    with ((((n * channels_ + c) * length_ + l) * height_ + h) * width_ + w) by ring.
  assert (H0 : 0 <= n * channels_ + c) by nia.
  assert (H1 : 0 <= (n * channels_ + c) * length_ + l) by nia.
  assert (H2 : 0 <= ((n * channels_ + c) * length_ + l) * height_ + h) by nia.
  destruct (quot_rem_digit _ width_ w H2 Hw) as [Q1 R1].
  destruct (quot_rem_digit _ height_ h H1 Hh) as [Q2 R2].
  destruct (quot_rem_digit _ length_ l H0 Hl) as [Q3 R3].
  destruct (quot_rem_digit n channels_ c Hn Hc) as [Q4 R4].
  rewrite Q1, Q2, Q3. auto.
Qed.

Lemma top_decode (n c pl ph pw : Z) :
  0 <= n -> 0 <= c < channels_ ->
  0 <= pl < pooled_length_ -> 0 <= ph < pooled_height_ -> 0 <= pw < pooled_width_ ->
  let index := top_offset channels_ pooled_length_ pooled_height_ pooled_width_ n c
               + pidx pl ph pw in
  top_n channels_ pooled_length_ pooled_height_ pooled_width_ index = n /\
  top_c channels_ pooled_length_ pooled_height_ pooled_width_ index = c /\
  top_pl pooled_length_ pooled_height_ pooled_width_ index = pl /\
  top_ph pooled_height_ pooled_width_ index = ph /\
  top_pw pooled_width_ index = pw.
Proof.
  intros Hn Hc Hl Hh Hw. cbv zeta.
  unfold top_n, top_c, top_pl, top_ph, top_pw, top_offset, pooled_index.
  replace ((n * channels_ + c) * pooled_length_ * pooled_height_ * pooled_width_
           + (pl * pooled_height_ * pooled_width_ + ph * pooled_width_ + pw))
    with ((((n * channels_ + c) * pooled_length_ + pl) * pooled_height_ + ph)
          * pooled_width_ + pw) by ring.
  assert (H0 : 0 <= n * channels_ + c) by nia.
  assert (H1 : 0 <= (n * channels_ + c) * pooled_length_ + pl) by nia.
  assert (H2 : 0 <= ((n * channels_ + c) * pooled_length_ + pl) * pooled_height_ + ph) by nia.
  destruct (quot_rem_digit _ pooled_width_ pw H2 Hw) as [Q1 R1].
  destruct (quot_rem_digit _ pooled_height_ ph H1 Hh) as [Q2 R2].
  destruct (quot_rem_digit _ pooled_length_ pl H0 Hl) as [Q3 R3].
  destruct (quot_rem_digit n channels_ c Hn Hc) as [Q4 R4].
  rewrite Q1, Q2, Q3. auto.
Qed.

Lemma flat_index_bounds (n c a b d m A B D : Z) :
  0 <= n < m -> 0 <= c < channels_ -> 0 <= a < A -> 0 <= b < B -> 0 <= d < D ->
  0 <= (n * channels_ + c) * A * B * D + (a * B * D + b * D + d) < m * channels_ * A * B * D.
Proof.
  intros Hn Hc Ha Hb Hd.
  replace ((n * channels_ + c) * A * B * D + (a * B * D + b * D + d))
    with ((((n * channels_ + c) * A + a) * B + b) * D + d) by ring.
  replace (m * channels_ * A * B * D) with ((((m * channels_) * A) * B) * D) by ring.
  apply digit_bounds; [|exact Hd].
  apply digit_bounds; [|exact Hb].
  apply digit_bounds; [|exact Ha].
  apply digit_bounds; assumption.
Qed.


(** *** Regions, bins and their boxes with exact bin sizes *)


Lemma rd_repeat {A} (d v : A) (n : nat) (i : Z) :
  0 <= i < Z.of_nat n -> rd d (repeat v n) i = v.
Proof.
  intros H. unfold rd. destruct (Z.ltb_spec i 0); [lia|].
  apply nth_repeat_lt. lia.
Qed.


Lemma in_all_bins (pl ph pw : Z) :
  In (pl, (ph, pw)) (all_bins pooled_length_ pooled_height_ pooled_width_) <->
  0 <= pl < pooled_length_ /\ 0 <= ph < pooled_height_ /\ 0 <= pw < pooled_width_.
Proof.
  unfold all_bins. rewrite !in_prod_iff, !in_range. tauto.
Qed.

Lemma clip_range (a b P x : Z) : 0 < P -> clip a P <= x < clip b P -> 0 <= x < P.
Proof. unfold clip. lia. Qed.

Lemma candidates_in_all_bins (r : roi_box) (l h w : Z) (p : Z * (Z * Z)) :
  0 < pooled_length_ -> 0 < pooled_height_ -> 0 < pooled_width_ ->
  In p (candidates pooled_length_ pooled_height_ pooled_width_ r l h w) ->
  In p (all_bins pooled_length_ pooled_height_ pooled_width_).
Proof.
  intros HL HH HW. destruct p as [pl [ph pw]].
  rewrite in_candidates, in_all_bins.
  unfold cand_start, cand_end, bwd_start, bwd_end.
  intros (Hl & Hh & Hw).
  split; [|split]; eapply clip_range; eassumption.
Qed.

(** With exact bin sizes, where the region is not inverted on any axis,
    every coordinate that Forward scans for one of its bins passes the
    containment test of Backward. *)
Lemma fwd_box_in_roi (r : roi_box) (pl ph pw l h w : Z) :
  0 < pooled_length_ -> 0 < pooled_height_ -> 0 < pooled_width_ ->
  0 <= pl < pooled_length_ -> 0 <= ph < pooled_height_ -> 0 <= pw < pooled_width_ ->
  roi_start_w r <= roi_end_w r -> roi_start_h r <= roi_end_h r ->
  roi_start_l r <= roi_end_l r ->
  In (l, (h, w)) (box_scan (box_of r pl ph pw)) ->
  in_roi r l h w = true.
Proof.
  intros HL HH HW Hl Hh Hw Ew Eh El Hx.
  apply in_box_scan in Hx. cbn [lstart lend hstart hend wstart wend fwd_box] in Hx.
  destruct Hx as (Xl & Xh & Xw). apply in_roi_true.
  split; [|split].
  - apply (fwd_axis_in_roi pw _ _ pooled_width_ width_); assumption.
  - apply (fwd_axis_in_roi ph _ _ pooled_height_ height_); assumption.
  - apply (fwd_axis_in_roi pl _ _ pooled_length_ length_); assumption.
Qed.

(** The bins of a region that is not inverted and lies in the volume are
    not empty. *)
Lemma inside_bins_nonempty (r : roi_box) (pl ph pw : Z) :
  0 < pooled_length_ -> 0 < pooled_height_ -> 0 < pooled_width_ ->
  roi_inside length_ height_ width_ r ->
  0 <= pl < pooled_length_ -> 0 <= ph < pooled_height_ -> 0 <= pw < pooled_width_ ->
  is_empty (box_of r pl ph pw) = false.
Proof.
  intros HL HH HW ((W0 & W1 & W2) & (H0 & H1 & H2) & (L0 & L1 & L2)) Hl Hh Hw.
  unfold is_empty, fwd_box. cbn [lstart lend hstart hend wstart wend].
  rewrite !orb_false_iff, !Z.leb_gt.
  split; [split|]; apply fwd_axis_nonempty; assumption.
Qed.


(** *** Index decoding is the inverse of the row-major encoding *)

Lemma decode_digits (i d1 d2 d3 d4 m : Z) :
  0 < d1 -> 0 < d2 -> 0 < d3 -> 0 < d4 ->
  0 <= i < m * d4 * d3 * d2 * d1 ->
  (0 <= Z.rem i d1 < d1 /\
   0 <= Z.rem (Z.quot i d1) d2 < d2 /\
   0 <= Z.rem (Z.quot (Z.quot i d1) d2) d3 < d3 /\
   0 <= Z.rem (Z.quot (Z.quot (Z.quot i d1) d2) d3) d4 < d4 /\
   0 <= Z.quot (Z.quot (Z.quot (Z.quot i d1) d2) d3) d4 < m) /\
  (Z.quot (Z.quot (Z.quot (Z.quot i d1) d2) d3) d4 * d4
   + Z.rem (Z.quot (Z.quot (Z.quot i d1) d2) d3) d4) * d3 * d2 * d1
  + (Z.rem (Z.quot (Z.quot i d1) d2) d3 * d2 * d1
     + Z.rem (Z.quot i d1) d2 * d1 + Z.rem i d1) = i.
Proof.
  intros H1 H2 H3 H4 Hi.
  set (q1 := Z.quot i d1). set (q2 := Z.quot q1 d2).
  set (q3 := Z.quot q2 d3). set (q4 := Z.quot q3 d4).
  assert (P1 : 0 <= q1) by (apply Z.quot_pos; lia).
  assert (P2 : 0 <= q2) by (apply Z.quot_pos; lia).
  assert (P3 : 0 <= q3) by (apply Z.quot_pos; lia).
  assert (P4 : 0 <= q4) by (apply Z.quot_pos; lia).
  pose proof (Z.quot_rem' i d1) as E1. fold q1 in E1.
  pose proof (Z.quot_rem' q1 d2) as E2. fold q2 in E2.
  pose proof (Z.quot_rem' q2 d3) as E3. fold q3 in E3.
  pose proof (Z.quot_rem' q3 d4) as E4. fold q4 in E4.
  pose proof (Z.rem_bound_pos i d1 (proj1 Hi) H1) as B1.
  pose proof (Z.rem_bound_pos q1 d2 P1 H2) as B2.
  pose proof (Z.rem_bound_pos q2 d3 P2 H3) as B3.
  pose proof (Z.rem_bound_pos q3 d4 P3 H4) as B4.
  assert (U1 : q1 < m * d4 * d3 * d2) by (apply Z.quot_lt_upper_bound; lia).
  assert (U2 : q2 < m * d4 * d3) by (apply Z.quot_lt_upper_bound; lia).
  assert (U3 : q3 < m * d4) by (apply Z.quot_lt_upper_bound; lia).
  assert (U4 : q4 < m) by (apply Z.quot_lt_upper_bound; lia).
  split; [repeat split; lia|].
  replace (q4 * d4 + Z.rem q3 d4) with q3 by lia.
  transitivity ((q3 * d3 + Z.rem q2 d3) * d2 * d1 + (Z.rem q1 d2 * d1 + Z.rem i d1));
    [ring|].
  replace (q3 * d3 + Z.rem q2 d3) with q2 by lia.
  transitivity ((q2 * d2 + Z.rem q1 d2) * d1 + Z.rem i d1); [ring|].
  replace (q2 * d2 + Z.rem q1 d2) with q1 by lia. lia.
Qed.

(** X1.  Lines 26-30 of the forward kernel: on the indices of the pooled output
    the decoded [(n, c, pl, ph, pw)] lie in their ranges and encode back to
    the index, and every tuple in range is the decoding of its encoding. *)
Theorem top_index_roundtrip :
  0 < channels_ -> 0 < pooled_length_ -> 0 < pooled_height_ -> 0 < pooled_width_ ->
  (forall num_rois index,
     0 <= index < num_rois * channels_ * pooled_length_ * pooled_height_ * pooled_width_ ->
     let n := top_n channels_ pooled_length_ pooled_height_ pooled_width_ index in
     let c := top_c channels_ pooled_length_ pooled_height_ pooled_width_ index in
     let pl := top_pl pooled_length_ pooled_height_ pooled_width_ index in
     let ph := top_ph pooled_height_ pooled_width_ index in
     let pw := top_pw pooled_width_ index in
     (0 <= n < num_rois /\ 0 <= c < channels_ /\ 0 <= pl < pooled_length_ /\
      0 <= ph < pooled_height_ /\ 0 <= pw < pooled_width_) /\
     top_offset channels_ pooled_length_ pooled_height_ pooled_width_ n c + pidx pl ph pw
     = index) /\
  (forall n c pl ph pw,
     0 <= n -> 0 <= c < channels_ -> 0 <= pl < pooled_length_ ->
     0 <= ph < pooled_height_ -> 0 <= pw < pooled_width_ ->
     let index := top_offset channels_ pooled_length_ pooled_height_ pooled_width_ n c
                  + pidx pl ph pw in
     top_n channels_ pooled_length_ pooled_height_ pooled_width_ index = n /\
     top_c channels_ pooled_length_ pooled_height_ pooled_width_ index = c /\
     top_pl pooled_length_ pooled_height_ pooled_width_ index = pl /\
     top_ph pooled_height_ pooled_width_ index = ph /\
     top_pw pooled_width_ index = pw).
Proof.
  intros HC HL HH HW. split.
  - intros num_rois index Hi. cbv zeta.
    destruct (decode_digits index pooled_width_ pooled_height_ pooled_length_ channels_
                num_rois HW HH HL HC Hi) as [(B1 & B2 & B3 & B4 & B5) E].
    unfold top_n, top_c, top_pl, top_ph, top_pw, top_offset, pooled_index.
    split; [tauto | exact E].
  - intros n c pl ph pw Hn Hc Hl Hh Hw. apply top_decode; assumption.
Qed.

(** X2.  Lines 113-117 of the backward kernel: the same for the indices of the
    feature volume and the coordinates [(n, c, l, h, w)]. *)
Theorem bottom_index_roundtrip :
  0 < channels_ -> 0 < length_ -> 0 < height_ -> 0 < width_ ->
  (forall num index,
     0 <= index < num * channels_ * length_ * height_ * width_ ->
     let n := bot_n channels_ length_ height_ width_ index in
     let c := bot_c channels_ length_ height_ width_ index in
     let l := bot_l length_ height_ width_ index in
     let h := bot_h height_ width_ index in
     let w := bot_w width_ index in
     (0 <= n < num /\ 0 <= c < channels_ /\ 0 <= l < length_ /\
      0 <= h < height_ /\ 0 <= w < width_) /\
     (n * channels_ + c) * length_ * height_ * width_ + bidx l h w = index) /\
  (forall n c l h w,
     0 <= n -> 0 <= c < channels_ -> 0 <= l < length_ ->
     0 <= h < height_ -> 0 <= w < width_ ->
     let index := (n * channels_ + c) * length_ * height_ * width_ + bidx l h w in
     bot_n channels_ length_ height_ width_ index = n /\
     bot_c channels_ length_ height_ width_ index = c /\
     bot_l length_ height_ width_ index = l /\
     bot_h height_ width_ index = h /\
     bot_w width_ index = w).
Proof.
  intros HC HL HH HW. split.
  - intros num index Hi. cbv zeta.
    destruct (decode_digits index width_ height_ length_ channels_
                num HW HH HL HC Hi) as [(B1 & B2 & B3 & B4 & B5) E].
    unfold bot_n, bot_c, bot_l, bot_h, bot_w, bottom_index.
    split; [tauto | exact E].
  - intros n c l h w Hn Hc Hl Hh Hw. apply bot_decode; assumption.
Qed.

(** *** More on the forward kernel *)

Lemma in_box_not_empty (b : bin_box) (x : Z * (Z * Z)) :
  In x (box_scan b) -> is_empty b = false.
Proof.
  intros Hx. destruct (is_empty b) eqn:E; [|reflexivity].
  rewrite (box_scan_empty b E) in Hx. destruct Hx.
Qed.

Lemma bottom_index_nonneg (l h w : Z) :
  0 <= l -> 0 <= h < height_ -> 0 <= w < width_ -> 0 <= bidx l h w.
Proof.
  intros Hl Hh Hw. unfold bottom_index.
  assert (0 <= l * height_) by nia.
  assert (0 <= l * height_ * width_) by nia.
  assert (0 <= h * width_) by nia. lia.
Qed.







(** X7.  Lines 26-39 and 69-74: with a valid batch index, every address the
    forward kernel reads lies inside its array: the region record inside
    the [7 * num_rois] floats of the region list, the feature elements
    inside the volume of [num] batch slots. *)
Theorem Forward_reads_in_bounds (bottom_rois : list Dtype) (num_rois num index : Z) :
  0 < channels_ -> 0 < pooled_length_ -> 0 < pooled_height_ -> 0 < pooled_width_ ->
  0 <= index < num_rois * channels_ * pooled_length_ * pooled_height_ * pooled_width_ ->
  0 <= roi_batch_ind bottom_rois
         (top_n channels_ pooled_length_ pooled_height_ pooled_width_ index * 7) < num ->
  (forall k, 0 <= k < 7 ->
     0 <= top_n channels_ pooled_length_ pooled_height_ pooled_width_ index * 7 + k
       < 7 * num_rois) /\
  (forall l h w,
     In (l, (h, w))
        (box_scan (fwd_index_box spatial_scale_xy_ spatial_scale_z_ channels_ length_
                     height_ width_ pooled_length_ pooled_height_ pooled_width_
                     bottom_rois index)) ->
     0 <= fwd_data_offset channels_ length_ height_ width_
            pooled_length_ pooled_height_ pooled_width_ bottom_rois index + bidx l h w
       < num * channels_ * length_ * height_ * width_).
Proof.
  intros HC HL HH HW Hi Hb.
  destruct (decode_digits index pooled_width_ pooled_height_ pooled_length_ channels_
              num_rois HW HH HL HC Hi) as [(B1 & B2 & B3 & B4 & B5) _].
  fold (top_c channels_ pooled_length_ pooled_height_ pooled_width_ index) in B4.
  fold (top_n channels_ pooled_length_ pooled_height_ pooled_width_ index) in B5.
  split.
  - intros k Hk. lia.
  - intros l h w Hin. unfold fwd_index_box in Hin.
    apply fwd_box_in_volume in Hin. destruct Hin as (Vl & Vh & Vw).
    unfold fwd_data_offset, bottom_index.
    apply flat_index_bounds; assumption.
Qed.

(** *** The bins of a region *)





(** *** More on the backward kernel *)

(** X14.  Lines 121-122, 144-146 and 167-178: every address the backward kernel
    reads lies inside its array: the region records inside the
    [7 * num_rois] floats of the region list, the selection index and the
    output gradient inside the [num_rois * channels * pooled] elements of
    the pooled output, since the candidate ranges are clipped to the pooled
    extents. *)
Theorem Backward_reads_in_bounds (bottom_rois : list Dtype) (num_rois num index roi_n : Z)
    (p : Z * (Z * Z)) :
  0 < channels_ -> 0 < length_ -> 0 < height_ -> 0 < width_ ->
  0 < pooled_length_ -> 0 < pooled_height_ -> 0 < pooled_width_ ->
  0 <= index < num * channels_ * length_ * height_ * width_ ->
  0 <= roi_n < num_rois ->
  In p (candidates pooled_length_ pooled_height_ pooled_width_
          (coords bottom_rois (roi_n * 7))
          (bot_l length_ height_ width_ index) (bot_h height_ width_ index)
          (bot_w width_ index)) ->
  (forall k, 0 <= k < 7 -> 0 <= roi_n * 7 + k < 7 * num_rois) /\
  0 <= top_offset channels_ pooled_length_ pooled_height_ pooled_width_ roi_n
         (bot_c channels_ length_ height_ width_ index)
       + pidx (fst p) (fst (snd p)) (snd (snd p))
    < num_rois * channels_ * pooled_length_ * pooled_height_ * pooled_width_.
Proof.
  intros HC HL HH HW PL PH PW Hi Hr Hp.
  destruct (decode_digits index width_ height_ length_ channels_ num HW HH HL HC Hi)
    as [(_ & _ & _ & Bc & _) _].
  fold (bot_c channels_ length_ height_ width_ index) in Bc.
  split; [intros k Hk; lia|].
  apply candidates_in_all_bins in Hp; try assumption.
  destruct p as [pl [ph pw]]. apply in_all_bins in Hp. destruct Hp as (Bl & Bh & Bw).
  cbn [fst snd]. unfold top_offset, pooled_index.
  apply flat_index_bounds; assumption.
Qed.

(** X15.  Lines 68 and 177: a selection index that is -1 everywhere sends no
    gradient back: the input gradient is 0 at every element. *)
Theorem Backward_nothing_selected (top_diff : list Dtype) (argmax_data : list Z)
    (num_rois num : Z) (bottom_diff bottom_rois : list Dtype) (index : Z) :
  0 < channels_ -> 0 < length_ -> 0 < height_ -> 0 < width_ ->
  0 < pooled_length_ -> 0 < pooled_height_ -> 0 < pooled_width_ ->
  Z.of_nat (List.length bottom_diff) = num * channels_ * length_ * height_ * width_ ->
  (forall j,
     0 <= j < num_rois * channels_ * pooled_length_ * pooled_height_ * pooled_width_ ->
     rd 0 argmax_data j = -1) ->
  0 <= index < Z.of_nat (List.length bottom_diff) ->
  rd 0%Q (backward true top_diff argmax_data num_rois bottom_diff bottom_rois) index = 0%Q.
Proof.
  intros HC HL HH HW PL PH PW Hlen Harg Hi.
  rewrite Backward_gpu_rd by exact Hi.
  rewrite Hlen in Hi.
  destruct (decode_digits index width_ height_ length_ channels_ num HW HH HL HC Hi)
    as [(Bw & Bh & Bl & Bc & _) _].
  fold (bot_w width_ index) in Bw. fold (bot_h height_ width_ index) in Bh.
  fold (bot_l length_ height_ width_ index) in Bl.
  fold (bot_c channels_ length_ height_ width_ index) in Bc.
  unfold ROIPoolBackward_thread. apply fold_left_fixed.
  intros roi_n Hr. apply in_range in Hr.
  apply roi_step_unmatched. right. right. intros p Hp.
  apply candidates_in_all_bins in Hp; try assumption.
  destruct p as [pl [ph pw]]. apply in_all_bins in Hp. destruct Hp as (Pl & Ph & Pw).
  cbn [fst snd]. rewrite Harg.
  - pose proof (bottom_index_nonneg _ _ _ (proj1 Bl) Bh Bw). lia.
  - unfold top_offset, pooled_index. apply flat_index_bounds; assumption.
Qed.




(** X18.  Lines 184 and 198: the kernel stores its accumulator with [=], so the
    result of Backward does not depend on what the gradient buffer held
    before; the kernel alone, run on a buffer of the same length that was
    not zeroed, gives the same result. *)
Theorem Backward_overwrites (top_diff : list Dtype) (argmax_data : list Z)
    (top_num : Z) (bottom_diff bottom_diff' bottom_rois : list Dtype) :
  List.length bottom_diff' = List.length bottom_diff ->
  backward true top_diff argmax_data top_num bottom_diff bottom_rois =
  ROIPoolBackward spatial_scale_xy_ spatial_scale_z_ channels_ length_ height_ width_
    pooled_length_ pooled_height_ pooled_width_
    (Z.of_nat (List.length bottom_diff)) top_diff argmax_data top_num
    bottom_diff' bottom_rois.
Proof.
  intros Hlen. apply rd_ext with (d := 0%Q).
  - rewrite Backward_gpu_length.
    unfold ROIPoolBackward, CUDA_KERNEL_LOOP.
    change (bwd_kernel_body top_diff argmax_data top_num bottom_rois)
      with (writes (bwd_thread top_diff argmax_data top_num bottom_rois)).
    rewrite length_run_writes. symmetry. exact Hlen.
  - intros i Hi. rewrite Backward_gpu_length in Hi.
    rewrite Backward_gpu_rd by exact Hi.
    unfold ROIPoolBackward, CUDA_KERNEL_LOOP.
    change (bwd_kernel_body top_diff argmax_data top_num bottom_rois)
      with (writes (bwd_thread top_diff argmax_data top_num bottom_rois)).
    rewrite rd_run_writes by (unfold Dtype in *; rewrite Hlen; exact Hi).
    rewrite existsb_range.
    destruct (Z.leb_spec 0 i); [|lia].
    destruct (Z.ltb_spec i (Z.of_nat (List.length bottom_diff))); [reflexivity | lia].
Qed.

Section Outside.

Variables bottom_data bottom_rois top_data : list Dtype.
Variable argmax_data : list Z.
Variables top_diff bottom_diff : list Dtype.
Variables num_rois num : Z.

Hypothesis HC : 0 < channels_.
Hypothesis HL : 0 < length_.
Hypothesis HH : 0 < height_.
Hypothesis HW : 0 < width_.
Hypothesis HPL : 0 < pooled_length_.
Hypothesis HPH : 0 < pooled_height_.
Hypothesis HPW : 0 < pooled_width_.
Hypothesis Htop :
  Z.of_nat (List.length top_data)
  = num_rois * channels_ * pooled_length_ * pooled_height_ * pooled_width_.
Hypothesis Harg : List.length argmax_data = List.length top_data.
Hypothesis Hdiff :
  Z.of_nat (List.length bottom_diff) = num * channels_ * length_ * height_ * width_.

(** The selection index that Forward leaves. *)
Local Abbreviation amax := (snd (forward bottom_data bottom_rois top_data argmax_data)).

Local Abbreviation top_at := (fun roi_n c (p : Z * (Z * Z)) =>
  top_offset channels_ pooled_length_ pooled_height_ pooled_width_ roi_n c
  + pidx (fst p) (fst (snd p)) (snd (snd p))).



End Outside.

(** X13.  Lines 81-82 and 94-99: Forward writes every element of both output
    buffers, so what they held before does not matter: buffers of the same
    length give the same result, and a second pass over its own output
    changes nothing. *)
Theorem Forward_overwrites (bottom_data bottom_rois top_data top_data' : list Dtype)
    (argmax_data argmax_data' : list Z) :
  List.length argmax_data = List.length top_data ->
  List.length top_data' = List.length top_data ->
  List.length argmax_data' = List.length top_data ->
  forward bottom_data bottom_rois top_data argmax_data =
  forward bottom_data bottom_rois top_data' argmax_data'.
Proof.
  intros Ha Ht Ha'.
  destruct (Forward_gpu_length bottom_data bottom_rois top_data argmax_data) as [L1 L2].
  destruct (Forward_gpu_length bottom_data bottom_rois top_data' argmax_data') as [L1' L2'].
  assert (Ha2 : List.length argmax_data' = List.length top_data')
    by (rewrite Ht; exact Ha').
  rewrite (surjective_pairing (forward bottom_data bottom_rois top_data argmax_data)).
  rewrite (surjective_pairing (forward bottom_data bottom_rois top_data' argmax_data')).
  f_equal.
  - apply rd_ext with (d := 0%Q).
    + transitivity (List.length top_data); [exact L1|].
      transitivity (List.length top_data'); [symmetry; exact Ht | symmetry; exact L1'].
    + intros i Hi.
      assert (Hi1 : 0 <= i < Z.of_nat (List.length top_data))
        by (rewrite <- L1; exact Hi).
      assert (Hi2 : 0 <= i < Z.of_nat (List.length top_data'))
        by (rewrite Ht; exact Hi1).
      transitivity (fst (fwd_thread bottom_data bottom_rois i)).
      * exact (Forward_gpu_top bottom_data bottom_rois top_data argmax_data i Hi1).
      * symmetry.
        exact (Forward_gpu_top bottom_data bottom_rois top_data' argmax_data' i Hi2).
  - apply rd_ext with (d := 0).
    + transitivity (List.length argmax_data); [exact L2|].
      transitivity (List.length argmax_data'); [|symmetry; exact L2'].
      rewrite Ha, Ha'. reflexivity.
    + intros i Hi.
      assert (Hi1 : 0 <= i < Z.of_nat (List.length top_data))
        by (rewrite <- Ha, <- L2; exact Hi).
      assert (Hi2 : 0 <= i < Z.of_nat (List.length top_data'))
        by (rewrite Ht; exact Hi1).
      transitivity (snd (fwd_thread bottom_data bottom_rois i)).
      * exact (Forward_gpu_argmax bottom_data bottom_rois top_data argmax_data i Ha Hi1).
      * symmetry.
        exact (Forward_gpu_argmax bottom_data bottom_rois top_data' argmax_data' i Ha2 Hi2).
Qed.

End LayerFacts.

(** ** Properties of the kernels in IEEE arithmetic *)

(** *** Integers that the format holds exactly *)











Section IEEEFacts.

Variables prec emax : Z.
Hypothesis Hprec : 1 < prec.
Hypothesis Hemax : prec < emax.








(** *** The backward kernel on one region *)

Variables spatial_scale_xy_ spatial_scale_z_ : IEEE.Dtype.
Variables channels_ length_ height_ width_ : Z.
Variables pooled_length_ pooled_height_ pooled_width_ : Z.

Local Abbreviation ieee_forward :=
  (IEEE.Forward_gpu prec emax spatial_scale_xy_ spatial_scale_z_ channels_ length_
     height_ width_ pooled_length_ pooled_height_ pooled_width_).
Local Abbreviation ieee_backward :=
  (IEEE.Backward_gpu prec emax spatial_scale_xy_ spatial_scale_z_ channels_ length_
     height_ width_ pooled_length_ pooled_height_ pooled_width_).
Local Abbreviation ieee_bwd_thread :=
  (IEEE.ROIPoolBackward_thread prec emax spatial_scale_xy_ spatial_scale_z_ channels_
     length_ height_ width_ pooled_length_ pooled_height_ pooled_width_).
Local Abbreviation ieee_coords :=
  (IEEE.roi_coords prec emax spatial_scale_xy_ spatial_scale_z_).
Local Abbreviation ieee_candidates :=
  (IEEE.candidates prec emax pooled_length_ pooled_height_ pooled_width_).








Section SingleRegion.

Variables bottom_rois : list IEEE.Dtype.
Variable argmax_data : list Z.
Variable bottom_diff : list IEEE.Dtype.
Variables num c count : Z.

Hypothesis Hpl : 0 < pooled_length_.
Hypothesis Hph : 0 < pooled_height_.
Hypothesis Hpw : 0 < pooled_width_.
Hypothesis Hc : 0 <= c < channels_.
Hypothesis Hbatch : 0 <= IEEE.roi_batch_ind bottom_rois 0 < num.
Hypothesis Hcount :
  count = 1 * channels_ * pooled_length_ * pooled_height_ * pooled_width_.
Hypothesis Hdiff :
  Z.of_nat (List.length bottom_diff) = num * channels_ * length_ * height_ * width_.
Hypothesis Hexact : pooled_length_ * pooled_height_ * pooled_width_ < 2 ^ prec.

(** The selection index of a bin of channel [c]. *)
Local Abbreviation selected := (fun p : Z * (Z * Z) =>
  rd 0 argmax_data
     (top_offset channels_ pooled_length_ pooled_height_ pooled_width_ 0 c
      + pooled_index pooled_height_ pooled_width_ (fst p) (fst (snd p)) (snd (snd p)))).

Local Abbreviation reached :=
  (IEEE.reaches prec emax channels_ length_ height_ width_
     pooled_length_ pooled_height_ pooled_width_
     argmax_data (ieee_coords bottom_rois 0) c).









End SingleRegion.


(** *** The bins of a region *)

Lemma floor_ceil (x : IEEE.Dtype) : IEEE.floor x <= IEEE.ceil x <= IEEE.floor x + 1.
Proof.
  destruct x as [s|s| |s m e]; cbn [IEEE.floor IEEE.ceil]; try lia.
  set (n := IEEE.signed s m).
  destruct e as [|p|p].
  - rewrite !Z.shiftl_0_r. lia.
  - rewrite !Z.shiftl_mul_pow2 by lia. lia.
  - rewrite !Z.shiftl_div_pow2 by lia.
    assert (Hd : 0 < 2 ^ (- Zneg p)) by (apply Z.pow_pos_nonneg; lia).
    pose proof (Z.mul_div_le n _ Hd). pose proof (Z.mul_succ_div_gt n _ Hd).
    pose proof (Z.mul_div_le (- n) _ Hd). pose proof (Z.mul_succ_div_gt (- n) _ Hd).
    nia.
Qed.

(** X8.  Lines 49-62, one axis, whatever the bin size and its rounding: bin
    [p + 1] starts no later than bin [p] ends, so no element lies between
    two consecutive bins, and the two share at most one element; bin 0
    starts where the region starts, clipped to the volume. *)
Theorem bins_are_contiguous (p : Z) (bin : IEEE.Dtype) (s dim : Z) :
  (IEEE.fwd_start prec emax (p + 1) bin s dim <= IEEE.fwd_end prec emax p bin s dim) /\
  (IEEE.fwd_end prec emax p bin s dim <= IEEE.fwd_start prec emax (p + 1) bin s dim + 1) /\
  IEEE.fwd_start prec emax 0 bin s dim = clip s dim.
Proof.
  unfold IEEE.fwd_start, IEEE.fwd_end.
  pose proof (floor_ceil (IEEE.mul prec emax (IEEE.of_int prec emax (p + 1)) bin)) as H.
  split; [unfold clip; lia|]. split; [unfold clip; lia|].
  assert (E : IEEE.floor (IEEE.mul prec emax (IEEE.of_int prec emax 0) bin) = 0)
    by (destruct bin as [[|]|[|]| |[|] m e]; reflexivity).
  rewrite E. reflexivity.
Qed.

End IEEEFacts.

(** ** The example of shape (1,1,4,4,4) *)


(** ** Evaluation on concrete inputs *)




(** C1, at the input where the code departs from it.  The region is
    inverted on the width axis (start 2, end 1).  Forward forces its width
    to 1, pools the element at width 2 and stores its flat encoding, 2, in
    the selection index; the containment test of Backward rejects that
    coordinate (2 <= 1 fails), so the output gradient 1 of the bin never
    reaches its argmax element: the input gradient is 0 everywhere. *)
Theorem Backward_misses_inverted_region :
  Inverted.forward = ([3%Q], [bottom_index 1 4 0 0 2]) /\
  is_empty (fwd_box 1 1 4 1 1 1 (roi_coords 1%Q 1%Q Inverted.bottom_rois 0) 0 0 0) = false /\
  in_roi (roi_coords 1%Q 1%Q Inverted.bottom_rois 0) 0 0 2 = false /\
  Inverted.top_diff = [1%Q] /\
  Inverted.backward = [0; 0; 0; 0]%Q.
Proof. vm_compute. repeat split; reflexivity. Qed.



Lemma Forward_deterministic_witness :
  run_threads (rev (range 0 8))
    (fwd_body 1%Q 1%Q 1 4 4 4 2 2 2 Cube.bottom_data Cube.bottom_rois)
    (repeat 9%Q 8, repeat 7 8) =
  Forward_gpu 1%Q 1%Q 1 4 4 4 2 2 2 Cube.bottom_data Cube.bottom_rois
    Cube.top_data Cube.argmax_data.
Proof.
  apply (Forward_deterministic 1%Q 1%Q 1 4 4 4 2 2 2 Cube.bottom_data Cube.bottom_rois
           Cube.top_data (repeat 9%Q 8) Cube.argmax_data (repeat 7 8) (rev (range 0 8))).
  - reflexivity.
  - reflexivity.
  - reflexivity.
  - apply Permutation_sym. apply Permutation_rev.
Defined.

Lemma Backward_skips_other_batch_witness :
  roi_step 1%Q 1%Q 1 4 4 2 2 2 (repeat 1%Q 8) (snd Cube.forward)
    [1; 0; 0; 0; 3; 3; 3]%Q 0 0 1 1 1 5%Q 0 = 5%Q.
Proof.
  apply (proj1 (Backward_skips_other_batch 1%Q 1%Q 1 4 4 4 2 2 2 (repeat 1%Q 8)
                  (snd Cube.forward) [1; 0; 0; 0; 3; 3; 3]%Q)).
  vm_compute. discriminate.
Defined.



(** ** Evaluation of the further properties *)

Lemma pair_regions (roi_n : Z) : 0 <= roi_n < 2 -> roi_n = 0 \/ roi_n = 1.
Proof. lia. Qed.

Lemma top_index_roundtrip_witness :
  (0 <= top_n 1 2 2 2 5 < 1 /\ 0 <= top_c 1 2 2 2 5 < 1 /\ 0 <= top_pl 2 2 2 5 < 2 /\
   0 <= top_ph 2 2 5 < 2 /\ 0 <= top_pw 2 5 < 2) /\
  top_offset 1 2 2 2 (top_n 1 2 2 2 5) (top_c 1 2 2 2 5)
  + pooled_index 2 2 (top_pl 2 2 2 5) (top_ph 2 2 5) (top_pw 2 5) = 5.
Proof.
  apply (proj1 (top_index_roundtrip 1 2 2 2 eq_refl eq_refl eq_refl eq_refl) 1 5). lia.
Defined.

Lemma bottom_index_roundtrip_witness :
  (0 <= bot_n 1 4 4 4 37 < 1 /\ 0 <= bot_c 1 4 4 4 37 < 1 /\ 0 <= bot_l 4 4 4 37 < 4 /\
   0 <= bot_h 4 4 37 < 4 /\ 0 <= bot_w 4 37 < 4) /\
  (bot_n 1 4 4 4 37 * 1 + bot_c 1 4 4 4 37) * 4 * 4 * 4
  + bottom_index 4 4 (bot_l 4 4 4 37) (bot_h 4 4 37) (bot_w 4 37) = 37.
Proof.
  apply (proj1 (bottom_index_roundtrip 1 4 4 4 eq_refl eq_refl eq_refl eq_refl) 1 37). lia.
Defined.





Lemma Forward_reads_in_bounds_witness :
  (forall k, 0 <= k < 7 -> 0 <= top_n 1 1 1 2 2 * 7 + k < 7 * 2) /\
  (forall l h w,
     In (l, (h, w)) (box_scan (fwd_index_box 1%Q 1%Q 1 1 2 3 1 1 2 Pair.bottom_rois 2)) ->
     0 <= fwd_data_offset 1 1 2 3 1 1 2 Pair.bottom_rois 2 + bottom_index 2 3 l h w
       < 2 * 1 * 1 * 2 * 3).
Proof.
  apply (Forward_reads_in_bounds 1%Q 1%Q 1 1 2 3 1 1 2 Pair.bottom_rois 2 2 2).
  - lia.
  - lia.
  - lia.
  - lia.
  - lia.
  - vm_compute. split; [discriminate | reflexivity].
Defined.




Lemma Backward_reads_in_bounds_witness :
  (forall k, 0 <= k < 7 -> 0 <= 0 * 7 + k < 7 * 2) /\
  0 <= top_offset 1 1 1 2 0 (bot_c 1 1 2 3 1)
       + pooled_index 1 2 (fst (0, (0, 1))) (fst (snd (0, (0, 1)))) (snd (snd (0, (0, 1))))
    < 2 * 1 * 1 * 1 * 2.
Proof.
  apply (Backward_reads_in_bounds 1%Q 1%Q 1 1 2 3 1 1 2 Pair.bottom_rois 2 2 1 0 (0, (0, 1))).
  - lia.
  - lia.
  - lia.
  - lia.
  - lia.
  - lia.
  - lia.
  - lia.
  - lia.
  - vm_compute. right. left. reflexivity.
Defined.

Lemma Backward_nothing_selected_witness :
  rd 0%Q (Backward_gpu 1%Q 1%Q 1 1 2 3 1 1 2 true Pair.top_diff (repeat (-1) 4) 2
            Pair.bottom_diff Pair.bottom_rois) 1 = 0%Q.
Proof.
  apply (Backward_nothing_selected 1%Q 1%Q 1 1 2 3 1 1 2 Pair.top_diff (repeat (-1) 4)
           2 2 Pair.bottom_diff Pair.bottom_rois 1).
  - lia.
  - lia.
  - lia.
  - lia.
  - lia.
  - lia.
  - lia.
  - reflexivity.
  - intros j Hj. apply rd_repeat. lia.
  - cbn. lia.
Defined.



Lemma Backward_overwrites_witness :
  Backward_gpu 1%Q 1%Q 1 1 2 3 1 1 2 true Pair.top_diff (snd Pair.forward) 2
    Pair.bottom_diff Pair.bottom_rois =
  ROIPoolBackward 1%Q 1%Q 1 1 2 3 1 1 2 (Z.of_nat (List.length Pair.bottom_diff))
    Pair.top_diff (snd Pair.forward) 2 (repeat 9%Q 12) Pair.bottom_rois.
Proof.
  apply (Backward_overwrites 1%Q 1%Q 1 1 2 3 1 1 2 Pair.top_diff (snd Pair.forward) 2
           Pair.bottom_diff (repeat 9%Q 12) Pair.bottom_rois).
  reflexivity.
Defined.


Lemma Forward_overwrites_witness :
  Forward_gpu 1%Q 1%Q 1 1 2 3 1 1 2 Pair.bottom_data Pair.bottom_rois
    Pair.top_data Pair.argmax_data =
  Forward_gpu 1%Q 1%Q 1 1 2 3 1 1 2 Pair.bottom_data Pair.bottom_rois
    (fst Pair.forward) (snd Pair.forward).
Proof.
  apply (Forward_overwrites 1%Q 1%Q 1 1 2 3 1 1 2 Pair.bottom_data Pair.bottom_rois
           Pair.top_data (fst Pair.forward) Pair.argmax_data (snd Pair.forward)).
  - reflexivity.
  - reflexivity.
  - reflexivity.
Defined.


(** ** Evaluation of the kernels in IEEE arithmetic *)


(** Backward does not reach every bin of every region inside the volume.
    In single precision, for the region 0..6 of a volume of width 8 with 13
    bins, 7 * (7 / 13) rounds above 7: the last bin scans one element past
    the region and selects it (flat coordinate 7), the containment test of
    Backward rejects that element, Backward reaches 12 of the 13 bins and
    the input gradient sums to 12. *)
Lemma gradient_sum_rounded_region :
  snd Single.Seven.forward = [0; 1; 1; 2; 2; 3; 3; 4; 4; 5; 5; 6; 7] /\
  in_roi (IEEE.roi_coords 24 128 Single.one Single.one Single.Seven.bottom_rois 0) 0 0 7
    = false /\
  filter
    (IEEE.reaches 24 128 1 1 1 8 1 1 13 (snd Single.Seven.forward)
       (IEEE.roi_coords 24 128 Single.one Single.one Single.Seven.bottom_rois 0) 0)
    (all_bins 1 1 13) = map (fun pw => (0, (0, pw))) (range 0 12) /\
  Single.Seven.backward = map Single.lit [1; 2; 2; 2; 2; 2; 1; 0] /\
  (IEEE.support_sum 1 1 1 8 Single.Seven.backward
     (IEEE.roi_batch_ind Single.Seven.bottom_rois 0) 0
     (IEEE.roi_coords 24 128 Single.one Single.one Single.Seven.bottom_rois 0)
   == inject_Z 12)%Q.
Proof. vm_compute. repeat split; reflexivity. Qed.


(** C3, at an input where the code departs from it.  In single precision,
    the region from -57 to -1 on the width axis ends before the volume
    starts.  Its extent is 57 and it has 7 bins; the bin size 57 / 7 is
    rounded and 7 * (57 / 7) rounds above 57, so the last bin ends at
    ceil(57.000004) - 57 = 1 and its clipped box is [0, 1): Forward stores
    the feature element at width 0 and its flat coordinate 0, not 0 and -1.
    Backward, whose containment test is on the integer boundaries, sends
    nothing back to that element. *)
Theorem Forward_pools_outside_region :
  IEEE.roi_coords 24 128 Single.one Single.one Single.Before.bottom_rois 0 =
    {| roi_start_w := -57; roi_start_h := 0; roi_start_l := 0;
       roi_end_w := -1; roi_end_h := 0; roi_end_l := 0 |} /\
  roi_outside 1 1 4
    (IEEE.roi_coords 24 128 Single.one Single.one Single.Before.bottom_rois 0) /\
  IEEE.fwd_index_box 24 128 Single.one Single.one 1 1 1 4 1 1 7 Single.Before.bottom_rois 6 =
    {| lstart := 0; lend := 1; hstart := 0; hend := 1; wstart := 0; wend := 1 |} /\
  Single.Before.forward =
    (map Single.lit [0; 0; 0; 0; 0; 0; 5], [-1; -1; -1; -1; -1; -1; 0]) /\
  Single.Before.backward = repeat IEEE.zero 4.
Proof.
  split; [vm_compute; reflexivity|].
  split; [left; left; vm_compute; discriminate|].
  split; [vm_compute; reflexivity|].
  split; vm_compute; reflexivity.
Qed.

(** C10, at inputs where the code departs from it.  In single precision,
    for the region 0..3 with 28 bins, the box of bin 20 is [2, 4) and
    Forward stores the flat coordinate 3 for it; the region contains that
    coordinate, but the candidate range that Backward computes for it is
    [21, 28), since 3 / (4 / 28) rounds to 21: bin 20 is missed and its
    output gradient reaches no element.  In double precision the same
    happens for the region 0..29 with 22 bins: bin 11 scans [14, 17) and
    selects coordinate 14, whose candidate range is [10, 11). *)
Theorem Backward_misses_rounded_bin :
  (IEEE.fwd_index_box 24 128 Single.one Single.one 1 1 1 4 1 1 28 Single.Fine.bottom_rois 20 =
     {| lstart := 0; lend := 1; hstart := 0; hend := 1; wstart := 2; wend := 4 |} /\
   rd 0 (snd Single.Fine.forward) 20 = bottom_index 1 4 0 0 3 /\
   in_roi (IEEE.roi_coords 24 128 Single.one Single.one Single.Fine.bottom_rois 0) 0 0 3
     = true /\
   IEEE.candidates 24 128 1 1 28
     (IEEE.roi_coords 24 128 Single.one Single.one Single.Fine.bottom_rois 0) 0 0 3 =
     map (fun pw => (0, (0, pw))) (range 21 28) /\
   rd IEEE.zero Single.Fine.top_diff 20 = Single.one /\
   Single.Fine.backward = repeat IEEE.zero 4) /\
  (IEEE.fwd_index_box 53 1024 Double.one Double.one 1 1 1 30 1 1 22 Double.bottom_rois 11 =
     {| lstart := 0; lend := 1; hstart := 0; hend := 1; wstart := 14; wend := 17 |} /\
   rd 0 (snd Double.forward) 11 = bottom_index 1 30 0 0 14 /\
   in_roi (IEEE.roi_coords 53 1024 Double.one Double.one Double.bottom_rois 0) 0 0 14
     = true /\
   IEEE.candidates 53 1024 1 1 22
     (IEEE.roi_coords 53 1024 Double.one Double.one Double.bottom_rois 0) 0 0 14 =
     [(0, (0, 10))] /\
   rd IEEE.zero Double.top_diff 11 = Double.one /\
   Double.backward = repeat IEEE.zero 30).
Proof. vm_compute. repeat split; reflexivity. Qed.

(** ** The initial value of the scan *)


